(** * HillTech Growers: the condition-to-alert decision engine of [app.py]

    A shallow embedding of the decision logic of [src/app.py]: the tank
    geometry ([get_tank_snapshot]), the three alert trees
    ([check_rain_alert], [check_water_tank_alert],
    [check_weather_irrigation_recommendation]), the alert sink
    ([add_alert], [save_alert_to_db]) and the soil branch of the
    [dashboard] route, followed by the properties the specification
    states about them.

    Conventions of the embedding.
    - A Python [float] is read as the rational it denotes ([Q]): readings are
      finite numbers (no NaN, no infinity) and arithmetic is exact.  A Python
      [int] is a [Z].
    - A network call is represented by its outcome ([exc]): the value the
      call returned, or the exception it raised.  Functions of the source
      that perform calls take those outcomes as arguments, in the order the
      source performs the calls.
    - [now_utc_iso()] is the clock: the timestamp it returns is an argument.
    - Python strings are Rocq strings holding their UTF-8 bytes. *)

From Stdlib Require Import ZArith QArith Qround Qminmax Lqa Lia.
From Stdlib Require Import String Ascii DecimalString.
From stdpp Require Import gmap strings list.

Open Scope string_scope.

(** ** Python values and exceptions *)

Inductive exn : Type :=
| RequestException   (* requests.get / raise_for_status / r.json() failed *)
| TypeError          (* float(None) *)
| KeyError.          (* d[k] with k missing *)

Inductive exc (A : Type) : Type :=
| Returned (a : A)
| Raised (e : exn).
Arguments Returned {A} a.
Arguments Raised {A} e.

#[global] Instance exc_ret : MRet exc := fun A a => Returned a.
#[global] Instance exc_bind : MBind exc := fun A B f m =>
  match m with
  | Returned a => f a
  | Raised e => Raised e
  end.

(** [try: body  except Exception: handler] *)
Definition try_except {A} (body : exc A) (handler : A) : A :=
  match body with
  | Returned a => a
  | Raised _ => handler
  end.

(** A value stored in a dict or passed to string formatting. *)
Inductive pyval : Type :=
| VStr (s : string)
| VInt (z : Z)
| VFloat (q : Q).

(** A number that is either an [int] or a [float]: [round(x, 1)] returns
    the type it was given. *)
Inductive pynum : Type :=
| NInt (z : Z)
| NFloat (q : Q).

Definition num_value (n : pynum) : Q :=
  match n with
  | NInt z => inject_Z z
  | NFloat q => q
  end.

Definition num_pyval (n : pynum) : pyval :=
  match n with
  | NInt z => VInt z
  | NFloat q => VFloat q
  end.

(** Comparisons of numbers, as booleans. *)
Definition Qgt_bool (x y : Q) : bool := negb (Qle_bool x y).
Definition Qlt_bool (x y : Q) : bool := negb (Qle_bool y x).
Definition Qge_bool (x y : Q) : bool := Qle_bool y x.

(** [min(a, b)] and [max(a, b)]: the first argument is kept unless the
    second is strictly smaller (larger). *)
Definition py_min (a b : Q) : Q := if Qlt_bool b a then b else a.
Definition py_max (a b : Q) : Q := if Qgt_bool b a then b else a.

(** [round(x)]: nearest integer, ties to the even one. *)
Definition py_round (x : Q) : Z :=
  let f := Qfloor x in
  match (x - inject_Z f ?= 1 # 2)%Q with
  | Lt => f
  | Gt => (f + 1)%Z
  | Eq => if Z.even f then f else (f + 1)%Z
  end.

(** [round(x, 2)]: the same rounding at the second decimal. *)
Definition py_round2 (x : Q) : Q := (inject_Z (py_round (x * 100)) / 100)%Q.

(** [int(x)] on a float: truncation toward zero. *)
Definition py_int (x : Q) : Z := Z.quot (Qnum x) (Z.pos (Qden x)).

(** [str(z)] for an int. *)
Definition str_int (z : Z) : string := NilEmpty.string_of_int (Z.to_int z).

(** [str(x)] for a float is Python's shortest round-trip representation of a
    binary64 number.  No property below depends on its digits: it is an
    interface of the embedding. *)
Class FloatStr : Type := float_str : Q -> string.

Definition py_str `{FloatStr} (v : pyval) : string :=
  match v with
  | VStr s => s
  | VInt z => str_int z
  | VFloat q => float_str q
  end.

(** ** The translation helper [_]

    [text % kwargs] with a dict on the right.  The templates of the source
    use two directives only, [%(name)s] and [%%]; any other directive, an
    unterminated one, or a name missing from [kwargs] makes the formatting
    fail here, and [_] then returns the template unchanged, as its
    [except] clause does. *)

Fixpoint kwargs_get (name : string) (kwargs : list (string * pyval)) : option pyval :=
  match kwargs with
  | [] => None
  | (k, v) :: rest => if String.eqb k name then Some v else kwargs_get name rest
  end.

Inductive format_state : Type :=
| Literal                   (* copying text *)
| AfterPercent              (* just read a percent sign *)
| InKey (name : string)     (* inside the parentheses of a key *)
| AfterKey (name : string). (* the key is closed, the conversion follows *)

Fixpoint percent_format `{FloatStr} (st : format_state) (text : string)
    (kwargs : list (string * pyval)) : option string :=
  match text with
  | EmptyString =>
      match st with
      | Literal => Some EmptyString
      | _ => None
      end
  | String c rest =>
      match st with
      | Literal =>
          if Ascii.eqb c "%" then percent_format AfterPercent rest kwargs
          else String c <$> percent_format Literal rest kwargs
      | AfterPercent =>
          if Ascii.eqb c "%" then String c <$> percent_format Literal rest kwargs
          else if Ascii.eqb c "(" then percent_format (InKey EmptyString) rest kwargs
          else None
      | InKey name =>
          if Ascii.eqb c ")" then percent_format (AfterKey name) rest kwargs
          else percent_format (InKey (name ++ String c EmptyString)) rest kwargs
      | AfterKey name =>
          if Ascii.eqb c "s" then
            v ← kwargs_get name kwargs;
            tail ← percent_format Literal rest kwargs;
            Some (py_str v ++ tail)
          else None
      end
  end.

(** [_(text, **kwargs)] *)
Definition underscore `{FloatStr} (text : string) (kwargs : list (string * pyval)) : string :=
  match kwargs with
  | [] => text
  | _ => default text (percent_format Literal text kwargs)
  end.

(** ** Data model *)

(** The dict returned by [get_weather_data]: three values come out of
    [round(x)] and are ints; [rainfall] comes out of [round(x, 1)]. *)
Record WeatherSnapshot : Type := {
  weather_temperature : Z;
  weather_humidity : Z;
  weather_rainfall : pynum;
  weather_wind_speed : Z
}.

(** An entry of the list returned by [get_weather_forecast]. *)
Record ForecastPoint : Type := {
  forecast_time : string;
  forecast_rain : Q;
  forecast_description : string;
  forecast_humidity : Q
}.

(** The dict returned by [get_soil_data]; the absent sentinel is [None]. *)
Record SoilSnapshot : Type := {
  soil_moisture : Q;
  soil_temperature : Q;
  soil_humidity : Q
}.

(** The JSON object served by the ESP32 at [/data]; a key that is missing
    or null reads as [None]. *)
Record Esp32Json : Type := {
  json_soil_pct : option Q;
  json_temp_c : option Q;
  json_humidity_pct : option Q;
  json_ultrasonic_cm : option Q
}.

(** The dict returned by [get_tank_snapshot]. *)
Record TankSnapshot : Type := {
  ultrasonic_cm : Q;
  height_cm : Q;
  volume_cm3 : Z;
  capacity_cm3 : Z;
  percent : Z
}.

(** An alert is a dict from field names to values. *)
Abbreviation alert := (gmap string pyval).

#[global] Instance Q_eq_dec : EqDecision Q.
Proof. solve_decision. Defined.
#[global] Instance pyval_eq_dec : EqDecision pyval.
Proof. solve_decision. Defined.

(** ** Configuration constants *)

Definition TANK_H1_CM : Q := 9.5.
Definition TANK_R_CM : Q := 4.85.
Definition PI_CONST : Q := 22 / 7.

(** ** The fetchers

    Each fetcher wraps its network call and the decoding of the answer in a
    [try]; the argument is the outcome of that [try] body. *)

Definition default_weather : WeatherSnapshot :=
  {| weather_temperature := 22; weather_humidity := 70;
     weather_rainfall := NInt 0; weather_wind_speed := 5 |}.

Definition get_weather_data (api : exc WeatherSnapshot) : WeatherSnapshot :=
  try_except api default_weather.

Definition get_weather_forecast (api : exc (list ForecastPoint)) : list ForecastPoint :=
  try_except api [].

(** [float(j.get(key, 0) or 0)] *)
Definition float_or_zero (field : option Q) : Q := default 0%Q field.

Definition get_soil_data (esp32 : exc Esp32Json) : option SoilSnapshot :=
  try_except
    (j ← esp32;
     mret (Some {| soil_moisture := float_or_zero (json_soil_pct j);
                   soil_temperature := float_or_zero (json_temp_c j);
                   soil_humidity := float_or_zero (json_humidity_pct j) |}))
    None.

(** ** Tank geometry *)

(** The computation of [get_tank_snapshot] once the reading [u] is known. *)
Definition tank_geometry (u : Q) : TankSnapshot :=
  let H1 := TANK_H1_CM in
  let R := TANK_R_CM in
  let PI := PI_CONST in
  let H := py_max 0 (py_min H1 (H1 - u)) in
  let base_area := (PI * R * R)%Q in
  let vol_cm3 := (base_area * H)%Q in
  let cap_cm3 := (base_area * H1)%Q in
  let percent := ((H / H1) * 100)%Q in
  {| ultrasonic_cm := py_round2 u;
     height_cm := py_round2 H;
     volume_cm3 := py_round vol_cm3;
     capacity_cm3 := py_round cap_cm3;
     percent := py_round percent |}.

(** [get_tank_snapshot] has no [try]: a failed request is raised to the
    caller, and so is [float(None)] when the key is missing. *)
Definition get_tank_snapshot (esp32 : exc Esp32Json) : exc TankSnapshot :=
  j ← esp32;
  u ← match json_ultrasonic_cm j with
      | Some u => Returned u
      | None => Raised TypeError
      end;
  mret (tank_geometry u).

(** A payload of the ESP32 that carries the reading [u] and nothing else. *)
Definition esp32_reading (u : Q) : Esp32Json :=
  {| json_soil_pct := None; json_temp_c := None; json_humidity_pct := None;
     json_ultrasonic_cm := Some u |}.


(** The invariant of a TankSnapshot in the words of the specification, for a
    reading [u] and a value [pi] of the circle constant. *)
Definition stated_tank_invariant (pi u : Q) (s : TankSnapshot) : Prop :=
  ((0 <= height_cm s)%Q /\ (height_cm s <= TANK_H1_CM)%Q) /\
  (height_cm s == Qmax 0 (Qmin TANK_H1_CM (TANK_H1_CM - u)))%Q /\
  percent s = py_round (100 * height_cm s / TANK_H1_CM) /\
  (inject_Z (volume_cm3 s) == pi * TANK_R_CM * TANK_R_CM * height_cm s)%Q /\
  (inject_Z (capacity_cm3 s) == pi * TANK_R_CM * TANK_R_CM * TANK_H1_CM)%Q.

(** ** The alert sink *)

(** A row of [alert_history]; the [id] column is the position in the table
    and [userid] is NULL for an anonymous alert. *)
Record AlertRow : Type := {
  row_userid : option string;
  row_alert_type : pyval;
  row_title : pyval;
  row_message : pyval;
  row_severity : pyval;
  row_category : pyval;
  row_created_at : pyval
}.

(** The mutable state the sink writes: the module-level list
    [FARMER_ALERTS] and the table [alert_history]. *)
Record AppState : Type := {
  FARMER_ALERTS : list alert;
  alert_history : list AlertRow
}.

(** A statement of the source: it may raise, and it leaves a state behind
    either way. *)
Definition stmt : Type := AppState -> exc unit * AppState.

(** [d[key]] *)
Definition subscript (d : alert) (key : string) : exc pyval :=
  match d !! key with
  | Some v => Returned v
  | None => Raised KeyError
  end.

(** The parameter tuple of the INSERT, evaluated left to right. *)
Definition alert_row (alert_data : alert) (userid : option string) : exc AlertRow :=
  let type := default (VStr "unknown") (alert_data !! "type") in
  title ← subscript alert_data "title";
  message ← subscript alert_data "message";
  severity ← subscript alert_data "severity";
  category ← subscript alert_data "category";
  timestamp ← subscript alert_data "timestamp";
  mret {| row_userid := userid; row_alert_type := type; row_title := title;
          row_message := message; row_severity := severity;
          row_category := category; row_created_at := timestamp |}.

Definition save_alert_to_db (alert_data : alert) (userid : option string) : stmt :=
  fun st =>
    match alert_row alert_data userid with
    | Returned row =>
        (Returned (),
         {| FARMER_ALERTS := FARMER_ALERTS st;
            alert_history := alert_history st ++ [row] |})
    | Raised e => (Raised e, st)
    end.

(** [not alert]: [None] and the empty dict are falsy. *)
Definition falsy (a : option alert) : bool :=
  match a with
  | None => true
  | Some d => bool_decide (size d = 0%nat)
  end.

Definition add_alert (a : option alert) (save_for_user : option string) : stmt :=
  fun st =>
    match a with
    | None => (Returned (), st)
    | Some d =>
        if falsy a then (Returned (), st)
        else
          save_alert_to_db d save_for_user
            {| FARMER_ALERTS := FARMER_ALERTS st ++ [d];
               alert_history := alert_history st |}
    end.

(** [first] then [second]: an exception of [first] ends the sequence. *)
Definition and_then (first second : stmt) : stmt :=
  fun st =>
    match first st with
    | (Returned _, st') => second st'
    | (Raised e, st') => (Raised e, st')
    end.

(** ** The rain / weather tree *)

(** [sum(item["rain"] for item in forecast)] *)
Definition total_rain_of (forecast : list ForecastPoint) : Q :=
  foldl Qplus 0%Q (forecast_rain <$> forecast).

(** [max((item["rain"] for item in forecast), default=0)] *)
Definition max_rain_of (forecast : list ForecastPoint) : Q :=
  match forecast_rain <$> forecast with
  | [] => 0%Q
  | first :: others => foldl py_max first others
  end.

Section Trees.
Context `{FloatStr}.

Definition check_rain_alert (forecast : list ForecastPoint)
    (current_weather : WeatherSnapshot) (soil : option SoilSnapshot)
    (ts : string) : option alert :=
  match forecast with
  | [] => None
  | _ =>
    let total_rain := total_rain_of forecast in
    let max_rain := max_rain_of forecast in
    let soil_moisture := soil_moisture <$> soil in
    let t := VInt (weather_temperature current_weather) in
    let h := VInt (weather_humidity current_weather) in
    let r := num_pyval (weather_rainfall current_weather) in
    let w := VInt (weather_wind_speed current_weather) in
    if Qgt_bool total_rain 5 || Qgt_bool max_rain 2 then
      Some {[ "type" := VStr "rain_alert";
              "title" := VStr (underscore "🌧 Heavy Rain Alert" []);
              "message" := VStr (underscore
                 "Warning! Heavy rainfall expected today. Current: %(t)s°C, %(h)s%%, %(r)smm, %(w)s km/h."
                 [("t", t); ("h", h); ("r", r); ("w", w)]);
              "severity" := VStr "high";
              "category" := VStr "weather";
              "timestamp" := VStr ts;
              "recommendation" := VStr (underscore "Cover young plants; delay irrigation." []);
              "icon" := VStr "🌧" ]}
    else if Qgt_bool total_rain 1 || Qgt_bool max_rain 0.5 then
      Some {[ "type" := VStr "rain_alert";
              "title" := VStr (underscore "☔ Rain Expected Today" []);
              "message" := VStr (underscore
                 "Rain expected. Conditions: %(t)s°C, %(h)s%%, %(r)smm, %(w)s km/h."
                 [("t", t); ("h", h); ("r", r); ("w", w)]);
              "severity" := VStr "medium";
              "category" := VStr "weather";
              "timestamp" := VStr ts;
              "recommendation" := VStr (underscore "Skip irrigation today; recheck tomorrow." []);
              "icon" := VStr "☔" ]}
    else if Qgt_bool total_rain 0.1 then
      Some {[ "type" := VStr "rain_alert";
              "title" := VStr (underscore "🌫 Uncertain Weather" []);
              "message" := VStr
                 match soil_moisture with
                 | None => underscore "Light rain chance." []
                 | Some m => underscore "Light rain chance. Soil %(m)s%%." [("m", VInt (py_int m))]
                 end;
              "severity" := VStr "low";
              "category" := VStr "weather";
              "timestamp" := VStr ts;
              "recommendation" := VStr (underscore "Check soil before irrigating." []);
              "icon" := VStr "🌫" ]}
    else
      match soil_moisture with
      | Some m =>
          if Qlt_bool m 40 then
            Some {[ "type" := VStr "irrigation_alert";
                    "title" := VStr (underscore "🌤 No Rain, Irrigation Needed" []);
                    "message" := VStr (underscore "No rain expected. Soil %(m)s%%." [("m", VInt (py_int m))]);
                    "severity" := VStr "medium";
                    "category" := VStr "irrigation";
                    "timestamp" := VStr ts;
                    "recommendation" := VStr (underscore "Follow normal irrigation schedule." []);
                    "icon" := VStr "🌤" ]}
          else
            Some {[ "type" := VStr "weather_update";
                    "title" := VStr (underscore "🌤 Good Weather Day" []);
                    "message" := VStr (underscore "Clear weather; soil moisture adequate." []);
                    "severity" := VStr "low";
                    "category" := VStr "weather";
                    "timestamp" := VStr ts;
                    "recommendation" := VStr (underscore "Continue regular activities." []);
                    "icon" := VStr "🌤" ]}
      | None =>
          Some {[ "type" := VStr "weather_update";
                  "title" := VStr (underscore "🌤 Good Weather Day" []);
                  "message" := VStr (underscore "Clear weather." []);
                  "severity" := VStr "low";
                  "category" := VStr "weather";
                  "timestamp" := VStr ts;
                  "recommendation" := VStr (underscore "Continue regular activities." []);
                  "icon" := VStr "🌤" ]}
      end
  end.

(** ** The tank tree *)

(** The argument is the outcome of the call [get_tank_snapshot()]. *)
Definition check_water_tank_alert (snapshot : exc TankSnapshot) (ts : string) : option alert :=
  match snapshot with
  | Raised _ => None
  | Returned snap =>
    let p := percent snap in
    let a_cm3 := volume_cm3 snap in
    let c_cm3 := capacity_cm3 snap in
    let msg := underscore "Water tank is at %(p)s%% (%(a)s cm³ / %(c)s cm³)."
                 [("p", VInt p); ("a", VInt a_cm3); ("c", VInt c_cm3)] in
    let base : alert :=
      {[ "type" := VStr "water_alert";
         "category" := VStr "water";
         "timestamp" := VStr ts;
         "message" := VStr msg;
         "icon" := VStr "💧" ]} in
    if (p >=? 90)%Z then
      Some (<["recommendation" := VStr (underscore "Turn off supply; check for leaks." [])]>
             (<["severity" := VStr "high"]>
               (<["title" := VStr (underscore "💧 Water Tank Full" [])]> base)))
    else if (p <=? 20)%Z then
      Some (<["recommendation" := VStr (underscore "Refill immediately." [])]>
             (<["severity" := VStr "high"]>
               (<["title" := VStr (underscore "⚠️ Water Tank Low" [])]> base)))
    else if (p <=? 40)%Z then
      Some (<["recommendation" := VStr (underscore "Plan a refill soon." [])]>
             (<["severity" := VStr "medium"]>
               (<["title" := VStr (underscore "🔔 Water Tank Getting Low" [])]> base)))
    else
      Some (<["recommendation" := VStr (underscore "No immediate action required." [])]>
             (<["severity" := VStr "low"]>
               (<["title" := VStr (underscore "💧 Water Tank Status Update" [])]> base)))
  end.

(** ** The irrigation-recommendation tree *)

(** The alert of the [except] clause. *)
Definition weather_unavailable_alert (ts : string) : alert :=
  {[ "type" := VStr "irrigation_recommendation";
     "title" := VStr (underscore "⚠️ Weather Data Unavailable" []);
     "message" := VStr (underscore "Unable to fetch weather data." []);
     "severity" := VStr "medium";
     "category" := VStr "irrigation";
     "timestamp" := VStr ts;
     "recommendation" := VStr (underscore "Check conditions manually." []);
     "icon" := VStr "⚠️" ]}.

(** The rules of the [try] body, once its three inputs are fetched. *)
Definition irrigation_rules (weather : WeatherSnapshot) (soil : option SoilSnapshot)
    (forecast : list ForecastPoint) (ts : string) : alert :=
  let total_rain := match forecast with [] => 0%Q | _ => total_rain_of forecast end in
  let max_rain := max_rain_of forecast in
  let t := weather_temperature weather in
  let h := weather_humidity weather in
  let curr_rain := num_value (weather_rainfall weather) in
  let wind := weather_wind_speed weather in
  let wx := [("t", VInt t); ("h", VInt h); ("w", VInt wind)] in
  if Qgt_bool total_rain 5 || Qgt_bool max_rain 2 || Qgt_bool curr_rain 1 then
    {[ "type" := VStr "irrigation_recommendation";
       "title" := VStr (underscore "🌧 Heavy Rain Alert - No Irrigation" []);
       "message" := VStr
          match soil with
          | None => underscore "Heavy rain expected. Wx: %(t)s°C, %(h)s%%, %(w)s km/h." wx
          | Some s =>
              underscore
                "Heavy rain expected. Wx: %(t)s°C, %(h)s%%, %(w)s km/h. Soil: %(sm)s%%, %(st)s°C, %(sh)s%%."
                (wx ++ [("sm", VInt (py_int (soil_moisture s)));
                        ("st", VInt (py_int (soil_temperature s)));
                        ("sh", VInt (py_int (soil_humidity s)))])
          end;
       "severity" := VStr "high";
       "category" := VStr "irrigation";
       "timestamp" := VStr ts;
       "recommendation" := VStr (underscore "Skip irrigation today." []);
       "icon" := VStr "🌧" ]}
  else if Qgt_bool total_rain 1 || Qgt_bool max_rain 0.5 || Qgt_bool curr_rain 0.1 then
    {[ "type" := VStr "irrigation_recommendation";
       "title" := VStr (underscore "🌦️ Medium Rain - Limited Irrigation" []);
       "message" := VStr (underscore
          "May rain today. Reduce irrigation by ~50%%. Wx: %(t)s°C, %(h)s%%, %(w)s km/h." wx);
       "severity" := VStr "medium";
       "category" := VStr "irrigation";
       "timestamp" := VStr ts;
       "recommendation" := VStr (underscore "Use minimal irrigation and monitor." []);
       "icon" := VStr "🌦️" ]}
  else
    match soil with
    | None =>
      {[ "type" := VStr "irrigation_recommendation";
         "title" := VStr (underscore "🌤️ Normal Weather - Sensor Offline" []);
         "message" := VStr (underscore
            "Normal conditions. Soil sensor data unavailable. Wx: %(t)s°C, %(h)s%%, %(w)s km/h." wx);
         "severity" := VStr "low";
         "category" := VStr "irrigation";
         "timestamp" := VStr ts;
         "recommendation" := VStr (underscore "Check sensor and follow your usual schedule." []);
         "icon" := VStr "🌤️" ]}
    | Some _ =>
      if Qeq_bool total_rain 0 && Qeq_bool curr_rain 0 && (t >? 25)%Z && (h <? 60)%Z then
        {[ "type" := VStr "irrigation_recommendation";
           "title" := VStr (underscore "☀️ Perfect Irrigation Day" []);
           "message" := VStr (underscore "Sunny and dry. Wx: %(t)s°C, %(h)s%%, %(w)s km/h." wx);
           "severity" := VStr "low";
           "category" := VStr "irrigation";
           "timestamp" := VStr ts;
           "recommendation" := VStr (underscore "Proceed with normal schedule." []);
           "icon" := VStr "☀️" ]}
      else
        {[ "type" := VStr "irrigation_recommendation";
           "title" := VStr (underscore "🌤️ Normal Weather - Regular Irrigation" []);
           "message" := VStr (underscore "Normal conditions. Wx: %(t)s°C, %(h)s%%, %(w)s km/h." wx);
           "severity" := VStr "low";
           "category" := VStr "irrigation";
           "timestamp" := VStr ts;
           "recommendation" := VStr (underscore "Follow your regular schedule." []);
           "icon" := VStr "🌤️" ]}
    end.

(** The arguments are the outcomes of the calls [get_weather_data()],
    [get_soil_data()] and [get_weather_forecast()], in that order.  The
    three fetchers of this file always return; an outcome [Raised] stands
    for a fetcher that fails all the same, which the [except] clause of the
    tree is there for. *)
Definition check_weather_irrigation_recommendation (weather_call : exc WeatherSnapshot)
    (soil_call : exc (option SoilSnapshot)) (forecast_call : exc (list ForecastPoint))
    (ts : string) : alert :=
  try_except
    (weather ← weather_call;
     soil ← soil_call;
     forecast ← forecast_call;
     mret (irrigation_rules weather soil forecast ts))
    (weather_unavailable_alert ts).

End Trees.

(** ** The dashboard route: moisture bucket and crop recommendation *)

(** [_moisture_bucket_from_pct(pct)]: [None] stands for a value on which
    [float(pct)] raises. *)
Definition _moisture_bucket_from_pct (pct : option Q) : string :=
  match pct with
  | None => "unknown"
  | Some v =>
      if Qge_bool v 90 then "flooded"
      else if Qgt_bool v 70 then "high"
      else if Qge_bool v 40 then "medium"
      else "low"
  end.

Definition ascii_upper (c : ascii) : ascii :=
  let n := nat_of_ascii c in
  if (97 <=? n)%nat && (n <=? 122)%nat then ascii_of_nat (n - 32) else c.

Definition ascii_lower (c : ascii) : ascii :=
  let n := nat_of_ascii c in
  if (65 <=? n)%nat && (n <=? 90)%nat then ascii_of_nat (n + 32) else c.

Fixpoint str_lower (s : string) : string :=
  match s with
  | EmptyString => EmptyString
  | String c rest => String (ascii_lower c) (str_lower rest)
  end.

(** [s.capitalize()], on ASCII text. *)
Definition capitalize (s : string) : string :=
  match s with
  | EmptyString => EmptyString
  | String c rest => String (ascii_upper c) (str_lower rest)
  end.

(** What a request to [/dashboard] produces: a redirect to the login page,
    or the rendered page with the values handed to the template.  The
    simulated fields of [data] ([irrigation], [tank_level], [current_time])
    are left out. *)
Record DashboardData (CropRecord : Type) : Type := {
  data_soil : option SoilSnapshot;
  data_weather : WeatherSnapshot;
  data_crops : list CropRecord;
  data_soil_category : string
}.
Arguments data_soil {CropRecord} _.
Arguments data_weather {CropRecord} _.
Arguments data_crops {CropRecord} _.
Arguments data_soil_category {CropRecord} _.

Inductive Response (CropRecord : Type) : Type :=
| Redirect (endpoint : string)
| Render (template : string) (data : DashboardData CropRecord) (selected_soil : option string).
Arguments Redirect {CropRecord} endpoint.
Arguments Render {CropRecord} template data selected_soil.

(** The response, the messages flashed to the user as (text, category)
    pairs, and the value written to [session['recommended_crops']], if
    any. *)
Record DashboardResult (CropRecord : Type) : Type := {
  response : Response CropRecord;
  flashed : list (string * string);
  session_recommended_crops : option (list string)
}.
Arguments response {CropRecord} _.
Arguments flashed {CropRecord} _.
Arguments session_recommended_crops {CropRecord} _.

Section Dashboard.
Context `{FloatStr}.

(** The catalog [cropsnew.csv] is not part of the sources, and the mask over
    its rows is computed by pandas: the catalog, its rows and the masking of
    lines 743-794 are parameters.  [crop_mask] receives what that block
    reads (the catalog, the soil dict, [live_bucket], [selected_soil]) and
    yields the rows kept, or the exception the block raised;
    [crop_name c] is [c.get("Crop")] when that is truthy. *)
Context {CropRecord Catalog : Type}.
Variable crop_mask :
  Catalog -> SoilSnapshot -> string -> option string -> exc (list CropRecord).
Variable crop_name : CropRecord -> option string.

(** [logged_in] is ["username" in session]; [soil] and [weather] are what
    [get_soil_data()] and [get_weather_data()] returned; [selected_soil] is
    the form field as normalised on line 676 ([None] on a GET). *)
Definition dashboard (logged_in : bool) (soil : option SoilSnapshot)
    (weather : WeatherSnapshot) (selected_soil : option string)
    (CROPS_DF : Catalog) : DashboardResult CropRecord :=
  if negb logged_in then
    {| response := Redirect "login";
       flashed := [(underscore "Please login first." [], "error")];
       session_recommended_crops := None |}
  else
    match soil with
    | None =>
        let recommended : list CropRecord := [] in
        let moisture_category := "Unknown" in
        {| response :=
             Render "dashboard.html"
               {| data_soil := None; data_weather := weather;
                  data_crops := recommended;
                  data_soil_category := moisture_category |}
               selected_soil;
           flashed :=
             [(underscore "No live soil sensor data. Connect ESP32 to see crop recommendations." [],
               "warning")];
           session_recommended_crops := Some [] |}
    | Some s =>
        let live_bucket := _moisture_bucket_from_pct (Some (soil_moisture s)) in
        let moisture_category :=
          if String.eqb live_bucket "unknown" then "Unknown" else capitalize live_bucket in
        let recommended :=
          try_except (crop_mask CROPS_DF s live_bucket selected_soil) [] in
        {| response :=
             Render "dashboard.html"
               {| data_soil := Some s; data_weather := weather;
                  data_crops := recommended;
                  data_soil_category := moisture_category |}
               selected_soil;
           flashed := [];
           session_recommended_crops := Some (omap crop_name recommended) |}
    end.

End Dashboard.

(** ** Vocabulary of the statements *)

Definition severity_is (a : alert) (s : string) : Prop := a !! "severity" = Some (VStr s).
Definition title_is (a : alert) (s : string) : Prop := a !! "title" = Some (VStr s).
Definition category_is (a : alert) (s : string) : Prop := a !! "category" = Some (VStr s).
Definition timestamp_is (a : alert) (ts : string) : Prop := a !! "timestamp" = Some (VStr ts).

(** The fields the INSERT of [save_alert_to_db] subscripts. *)
Definition history_fields : list string :=
  ["title"; "message"; "severity"; "category"; "timestamp"].

(** An alert of the data model carries all of them. *)
Definition well_formed_alert (d : alert) : Prop :=
  Forall (fun k => is_Some (d !! k)) history_fields.

(** Every alert of the rules is an irrigation alert with one of the three
    severities, stamped [ts], and it has the fields the history table reads. *)
Definition irrigation_alert_shape (a : alert) (ts : string) : Prop :=
  category_is a "irrigation" /\ timestamp_is a ts /\
  (severity_is a "low" \/ severity_is a "medium" \/ severity_is a "high") /\
  falsy (Some a) = false /\
  (exists row, alert_row a None = Returned row).

(** One evaluation of one of the three trees, with the inputs it fetched. *)
Inductive tree_call : Type :=
| RainTree (forecast : list ForecastPoint) (current_weather : WeatherSnapshot)
    (soil : option SoilSnapshot)
| TankTree (snapshot : exc TankSnapshot)
| IrrigationTree (weather_call : exc WeatherSnapshot)
    (soil_call : exc (option SoilSnapshot)) (forecast_call : exc (list ForecastPoint)).

Definition evaluate `{FloatStr} (t : tree_call) (ts : string) : option alert :=
  match t with
  | RainTree forecast current_weather soil =>
      check_rain_alert forecast current_weather soil ts
  | TankTree snapshot => check_water_tank_alert snapshot ts
  | IrrigationTree weather_call soil_call forecast_call =>
      Some (check_weather_irrigation_recommendation weather_call soil_call forecast_call ts)
  end.

(** A forecast point with a given rain value, a sample soil reading and a
    sample timestamp, for the examples. *)
Definition forecast_point (rain : Q) : ForecastPoint :=
  {| forecast_time := "09:00"; forecast_rain := rain;
     forecast_description := "light rain"; forecast_humidity := 80 |}.

Definition sample_soil (moisture : Q) : SoilSnapshot :=
  {| soil_moisture := moisture; soil_temperature := 22; soil_humidity := 55 |}.

Definition sample_ts : string := "2025-06-01T07:00:00+00:00".

(** The text of a tank alert for the values of a snapshot. *)
Definition tank_message (snap : TankSnapshot) : string :=
  "Water tank is at " ++ str_int (percent snap) ++ "% (" ++
  str_int (volume_cm3 snap) ++ " cm³ / " ++ str_int (capacity_cm3 snap) ++ " cm³).".

(** A printer for floats with one decimal, to run the trees on examples. *)
Definition one_decimal : FloatStr := fun q =>
  let tenths := py_round (q * 10) in
  (if (tenths <? 0)%Z then "-" else "") ++
  str_int (Z.abs tenths / 10) ++ "." ++ str_int (Z.abs tenths mod 10).


(** * Further functions of [app.py] *)

(** ** Actions on the application state

    A piece of code that may raise, leaves a state behind either way, and
    otherwise returns a value; a [stmt] is an action that returns nothing. *)

Definition action (A : Type) : Type := AppState -> exc A * AppState.

Definition act_ret {A} (a : A) : action A := fun st => (Returned a, st).

Definition act_bind {A B} (m : action A) (f : A -> action B) : action B :=
  fun st =>
    match m st with
    | (Returned a, st') => f a st'
    | (Raised e, st') => (Raised e, st')
    end.

(** [pass] *)
Definition skip : stmt := act_ret ().

(** [if a: add_alert(a)] *)
Definition add_if_any (a : option alert) : stmt :=
  if falsy a then skip else add_alert a None.

(** ** The scheduler jobs *)

Section Scheduler.
Context `{FloatStr}.

(** The alert built in the [else] branch of [generate_daily_weather_alert];
    it has no [icon]. *)
Definition daily_weather_update (w : WeatherSnapshot) (ts : string) : alert :=
  {[ "type" := VStr "weather_update";
     "title" := VStr (underscore "Daily Weather Update" []);
     "message" := VStr (underscore
        "Today's weather: %(t)s°C, %(h)s%% humidity. No significant rain expected."
        [("t", VInt (weather_temperature w)); ("h", VInt (weather_humidity w))]);
     "severity" := VStr "low";
     "category" := VStr "weather";
     "timestamp" := VStr ts;
     "recommendation" := VStr (underscore "Normal irrigation schedule can be followed." []) ]}.

(** The notice [generate_water_tank_alert] falls back to. *)
Definition tank_offline_notice (ts : string) : alert :=
  {[ "type" := VStr "water_status";
     "title" := VStr (underscore "💧 Water Tank Status" []);
     "message" := VStr (underscore "Sensor offline. Unable to read tank just now." []);
     "severity" := VStr "low";
     "category" := VStr "water";
     "timestamp" := VStr ts;
     "recommendation" := VStr (underscore "Check the device connection." []);
     "icon" := VStr "💧" ]}.

(** [forecast], [current_weather] and [soil] are what the fetches inside
    [check_rain_alert] returned, [w] what the second [get_weather_data()]
    of the [else] branch returned, [snapshot] the outcome of the tank read;
    [ts_weather] is the clock read for the first alert, [ts_tank] the one
    for the tank alert. *)
Definition generate_daily_weather_alert (forecast : list ForecastPoint)
    (current_weather : WeatherSnapshot) (soil : option SoilSnapshot)
    (w : WeatherSnapshot) (snapshot : exc TankSnapshot)
    (ts_weather ts_tank : string) : stmt :=
  let ra := check_rain_alert forecast current_weather soil ts_weather in
  and_then
    (if falsy ra then add_alert (Some (daily_weather_update w ts_weather)) None
     else add_alert ra None)
    (let wa := check_water_tank_alert snapshot ts_tank in
     add_if_any wa).

Definition generate_water_tank_alert (snapshot : exc TankSnapshot) (ts : string) : stmt :=
  let wa := check_water_tank_alert snapshot ts in
  if falsy wa then add_alert (Some (tank_offline_notice ts)) None
  else add_alert wa None.

End Scheduler.

(** ** The alert routes *)

(** The JSON answers of the routes below, with their status codes. *)
Inductive reply : Type :=
| Unauthorized                              (* {'error': 'Unauthorized'}, 401 *)
| RunAlertsReply (created : list alert)     (* {'status': 'ok', 'created': ...} *)
| AlertReply (a : option alert)             (* {'status': 'success', 'alert': ...} *)
| NoAlertReply (message : string)           (* {'status': 'no_alert', 'message': ...} *)
| TankStatusReply (message : string) (tank_percent : Z) (water_height_cm : Q)
    (volume capacity : Z)                   (* {'status': 'no_alert', ...live values} *)
| SensorOfflineReply (message : string)     (* {'status': 'error', ...}, 502 *)
| TankSensorReply (tank_level : Q) (tank_capacity available_water : Z)
    (timestamp : string).                   (* {'status': 'success', ...} *)

Section Routes.
Context `{FloatStr}.

(** [if a: add_alert(a); created.append(a)] *)
Definition add_and_append (a : option alert) (created : list alert) : action (list alert) :=
  if falsy a then act_ret created
  else act_bind (add_alert a None) (fun _ => act_ret (created ++ option_list a)%list).

(** [logged_in] is ['username' in session]; the other arguments are the
    outcomes of the fetches and the clock reads, in the order of the calls. *)
Definition api_run_alerts (logged_in : bool)
    (forecast : list ForecastPoint) (current_weather : WeatherSnapshot)
    (soil : option SoilSnapshot) (snapshot : exc TankSnapshot)
    (weather_call : exc WeatherSnapshot) (soil_call : exc (option SoilSnapshot))
    (forecast_call : exc (list ForecastPoint))
    (ts_rain ts_tank ts_irrigation : string) : action reply :=
  if negb logged_in then act_ret Unauthorized
  else
    let created : list alert := [] in
    let ra := check_rain_alert forecast current_weather soil ts_rain in
    act_bind (add_and_append ra created) (fun created =>
    let wa := check_water_tank_alert snapshot ts_tank in
    act_bind (add_and_append wa created) (fun created =>
    let ir := check_weather_irrigation_recommendation weather_call soil_call
                forecast_call ts_irrigation in
    act_bind (add_and_append (Some ir) created) (fun created =>
    act_ret (RunAlertsReply created)))).

Definition manual_weather_alert (logged_in : bool)
    (forecast : list ForecastPoint) (current_weather : WeatherSnapshot)
    (soil : option SoilSnapshot) (ts : string) : action reply :=
  if negb logged_in then act_ret Unauthorized
  else
    let a := check_rain_alert forecast current_weather soil ts in
    if falsy a then act_ret (NoAlertReply "No rain alert needed")
    else act_bind (add_alert a None) (fun _ => act_ret (AlertReply a)).

(** [snapshot] is the outcome of the read inside [check_water_tank_alert],
    [second_read] that of the read the route makes when no alert came
    back. *)
Definition manual_water_tank_alert (logged_in : bool)
    (snapshot second_read : exc TankSnapshot) (ts : string) : action reply :=
  if negb logged_in then act_ret Unauthorized
  else
    let a := check_water_tank_alert snapshot ts in
    if falsy a then
      match second_read with
      | Returned snap =>
          act_ret (TankStatusReply
            (underscore "Water tank is at %(p)s%% (%(a)s cm³ / %(c)s cm³)."
               [("p", VInt (percent snap)); ("a", VInt (volume_cm3 snap));
                ("c", VInt (capacity_cm3 snap))])
            (percent snap) (height_cm snap) (volume_cm3 snap) (capacity_cm3 snap))
      | Raised _ => act_ret (SensorOfflineReply "Sensor offline. Unable to read tank.")
      end
    else act_bind (add_alert a None) (fun _ => act_ret (AlertReply a)).

Definition manual_weather_irrigation_recommendation (logged_in : bool)
    (weather_call : exc WeatherSnapshot) (soil_call : exc (option SoilSnapshot))
    (forecast_call : exc (list ForecastPoint)) (ts : string) : action reply :=
  if negb logged_in then act_ret Unauthorized
  else
    let a := Some (check_weather_irrigation_recommendation weather_call soil_call
                     forecast_call ts) in
    if falsy a then
      act_ret (NoAlertReply "No specific irrigation recommendation needed")
    else act_bind (add_alert a None) (fun _ => act_ret (AlertReply a)).

End Routes.

(** ** The simulated tank level *)

(** [round(x, 1)] *)
Definition py_round1 (x : Q) : Q := (inject_Z (py_round (x * 10)) / 10)%Q.

(** [max(0, min(100, x))] *)
Definition clamp_percent (x : Q) : Q := py_max 0 (py_min 100 x).

(** [get_tank_level]: [change] and [noise] are the two draws of
    [random.uniform]; the result is the reading returned and the new value
    of the global [CURRENT_TANK_LEVEL]. *)
Definition get_tank_level (change noise : Q) (CURRENT_TANK_LEVEL : Q) : Q * Q :=
  let CURRENT_TANK_LEVEL := clamp_percent (CURRENT_TANK_LEVEL + change) in
  let sensor := clamp_percent (CURRENT_TANK_LEVEL + noise) in
  (py_round1 sensor, CURRENT_TANK_LEVEL).

Inductive scenario : Type :=
| normal | irrigation_use | refill | leak | stable.

(** [simulate_sensor_scenarios]: [choice] is the draw of [random.choice] and
    [amount] the draw of [random.uniform] of the branch taken. *)
Definition simulate_sensor_scenarios (choice : scenario) (amount : Q)
    (CURRENT_TANK_LEVEL : Q) : Q :=
  let CURRENT_TANK_LEVEL :=
    match choice with
    | irrigation_use => (CURRENT_TANK_LEVEL - amount)%Q
    | refill => (CURRENT_TANK_LEVEL + amount)%Q
    | leak => (CURRENT_TANK_LEVEL - amount)%Q
    | stable => (CURRENT_TANK_LEVEL + amount)%Q
    | normal => CURRENT_TANK_LEVEL
    end in
  clamp_percent CURRENT_TANK_LEVEL.

(** [get_tank_sensor_data]: the answer and the new level. *)
Definition get_tank_sensor_data (logged_in : bool) (choice : scenario)
    (amount change noise : Q) (now : string) (CURRENT_TANK_LEVEL : Q) : reply * Q :=
  if negb logged_in then (Unauthorized, CURRENT_TANK_LEVEL)
  else
    let CURRENT_TANK_LEVEL := simulate_sensor_scenarios choice amount CURRENT_TANK_LEVEL in
    let '(level, CURRENT_TANK_LEVEL) := get_tank_level change noise CURRENT_TANK_LEVEL in
    let capacity := 5000%Z in
    let available := py_int (inject_Z capacity * level / 100) in
    (TankSensorReply level capacity available now, CURRENT_TANK_LEVEL).

(** ** Accounts and sessions *)

(** A row of the table [users]; [userid] is its primary key.  The column
    [created_at] is left out. *)
Record UserRow : Type := {
  user_userid : string;
  user_name : string;
  user_password : string;
  user_phone : string
}.

(** The Flask session: a dict from keys to strings. *)
Abbreviation session := (gmap string string).

(** What a page route answers with, next to the messages it flashes. *)
Inductive page : Type :=
| RedirectTo (endpoint : string)
| RenderTemplate (template : string).

Record RegisterForm : Type := {
  form_userid : string;
  form_name : string;
  form_password : string;
  form_phone : string
}.

Record LoginForm : Type := {
  login_userid : string;
  login_password : string
}.

(** [len(s)]: the number of code points, that is of bytes that do not
    continue a UTF-8 sequence. *)
Fixpoint py_len (s : string) : nat :=
  match s with
  | EmptyString => 0
  | String c rest =>
      let n := nat_of_ascii c in
      if (128 <=? n)%nat && (n <? 192)%nat then py_len rest else S (py_len rest)
  end.

(** [not s] for a string *)
Definition str_empty (s : string) : bool :=
  match s with
  | EmptyString => true
  | String _ _ => false
  end.

Section Accounts.
Context `{FloatStr}.

(** [str.strip()] and [str.isdigit()] are Python's; nothing is assumed of
    them. *)
Variable strip : string -> string.
Variable isdigit : string -> bool.

(** The request is [None] for a GET and the submitted form for a POST.  The
    INSERT raises [IntegrityError] when the primary key is taken. *)
Definition register (request : option RegisterForm) (users : list UserRow)
    : page * list (string * string) * list UserRow :=
  match request with
  | None => (RenderTemplate "register.html", [], users)
  | Some form =>
      let userid := strip (form_userid form) in
      let name := strip (form_name form) in
      let password := strip (form_password form) in
      let phone := strip (form_phone form) in
      if negb (isdigit userid) then
        (RedirectTo "register",
         [(underscore "UserID must contain only numbers." [], "error")], users)
      else if negb (isdigit phone) || negb (py_len phone =? 10)%nat then
        (RedirectTo "register",
         [(underscore "Phone number must be exactly 10 digits." [], "error")], users)
      else if str_empty name || str_empty password then
        (RedirectTo "register",
         [(underscore "Name and Password cannot be empty." [], "error")], users)
      else if existsb (fun u => String.eqb (user_userid u) userid) users then
        (RenderTemplate "register.html",
         [(underscore "UserID already exists. Try another one." [], "error")], users)
      else
        (RedirectTo "login",
         [(underscore "Registration successful! Please login." [], "success")],
         (users ++ [{| user_userid := userid; user_name := name;
                       user_password := password; user_phone := phone |}])%list)
  end.

(** [SELECT * FROM users WHERE userid=? AND password=?], then [fetchone]. *)
Definition select_user (userid password : string) (users : list UserRow) : option UserRow :=
  List.find (fun u => String.eqb (user_userid u) userid &&
                      String.eqb (user_password u) password) users.

Definition login (request : option LoginForm) (users : list UserRow) (s : session)
    : page * list (string * string) * session :=
  match request with
  | None => (RenderTemplate "login.html", [], s)
  | Some form =>
      match select_user (login_userid form) (login_password form) users with
      | Some user =>
          (RedirectTo "dashboard",
           [(underscore "Login successful!" [], "success")],
           <["phone" := user_phone user]>
             (<["password" := user_password user]>
               (<["username" := user_name user]>
                 (<["userid" := user_userid user]> s))))
      | None =>
          (RenderTemplate "login.html",
           [(underscore "Invalid UserID or Password" [], "error")], s)
      end
  end.

Definition logout (s : session) : page * list (string * string) * session :=
  (RedirectTo "login",
   [(underscore "You have been logged out." [], "success")],
   delete "username" s).

Definition home (s : session) : page :=
  if bool_decide (is_Some (s !! "username")) then RedirectTo "dashboard"
  else RedirectTo "login".

End Accounts.

(** ['username' in session], the guard of the routes above. *)
Definition logged_in_session (s : session) : bool :=
  bool_decide (is_Some (s !! "username")).

(** ** The crops of a user *)

(** A row of [user_crops]; [created_at] is left out. *)
Record CropRow : Type := {
  crop_id : Z;
  crop_userid : string;
  crop_crop_name : string;
  crop_soil_type : string;
  crop_water_requirement : Q;
  crop_start_date : string;
  crop_status : string
}.

(** The table with the counter of its AUTOINCREMENT key: the largest id
    handed out so far. *)
Record CropTable : Type := {
  user_crops : list CropRow;
  last_crop_id : Z
}.

(** The JSON body of [/api/add_crop_to_irrigation]: a field is [None] when
    missing or null; [json_water_requirement] is the outcome of
    [float(wr_raw or 0)]. *)
Record CropRequest : Type := {
  json_crop_name : option string;
  json_soil_type : option string;
  json_start_date : option string;
  json_water_requirement : exc Q
}.

(** The answers of the two crop routes. *)
Inductive crop_reply : Type :=
| CropUnauthorized                         (* 401 *)
| MissingFields                            (* 400 *)
| DatabaseError                            (* 500 *)
| CropAdded (message : string) (a : alert) (* {'status': 'success', ...} *)
| CropNotFound                             (* 404 *)
| CropDeleted.                             (* {'status': 'success', ...} *)

Section Crops.
Context `{FloatStr}.
Variable strip : string -> string.

Definition add_crop_to_irrigation (s : session) (data : CropRequest) (now : string)
    (t : CropTable) : action (crop_reply * CropTable) :=
  if negb (logged_in_session s) then act_ret (CropUnauthorized, t)
  else
    let crop_name := strip (default "" (json_crop_name data)) in
    let soil_type := strip (default "" (json_soil_type data)) in
    let start_date := strip (default "" (json_start_date data)) in
    let water_requirement := try_except (json_water_requirement data) 0%Q in
    if str_empty crop_name || str_empty soil_type || str_empty start_date then
      act_ret (MissingFields, t)
    else
      match s !! "userid" with
      | None => act_ret (DatabaseError, t)
      | Some userid =>
          let crop_id := (last_crop_id t + 1)%Z in
          let t' :=
            {| user_crops :=
                 (user_crops t ++
                  [{| crop_id := crop_id; crop_userid := userid;
                      crop_crop_name := crop_name; crop_soil_type := soil_type;
                      crop_water_requirement := water_requirement;
                      crop_start_date := start_date; crop_status := "active" |}])%list;
               last_crop_id := crop_id |} in
          let irrigation_alert : alert :=
            {[ "type" := VStr "irrigation_alert";
               "title" := VStr (underscore "🌱 Growing %(crop)s" [("crop", VStr crop_name)]);
               "message" := VStr (underscore
                  "You are now growing %(crop)s in %(soil)s soil. Water requirement: %(wr)s mm. Started on %(d)s."
                  [("crop", VStr crop_name); ("soil", VStr soil_type);
                   ("wr", VFloat water_requirement); ("d", VStr start_date)]);
               "severity" := VStr "medium";
               "category" := VStr "irrigation";
               "timestamp" := VStr now;
               "recommendation" := VStr (underscore
                  "Monitor soil moisture regularly. Water requirement: %(wr)s mm per cycle."
                  [("wr", VFloat water_requirement)]);
               "icon" := VStr "🌱";
               "crop_name" := VStr crop_name;
               "soil_type" := VStr soil_type;
               "water_requirement" := VFloat water_requirement;
               "start_date" := VStr start_date;
               "crop_id" := VInt crop_id ]} in
          fun st =>
            match add_alert (Some irrigation_alert) (Some userid) st with
            | (Returned _, st') =>
                (Returned
                   (CropAdded
                      (underscore "%(crop)s added to irrigation alerts" [("crop", VStr crop_name)])
                      irrigation_alert, t'), st')
            | (Raised e, st') => (Raised e, st')
            end
      end.

Definition remove_crop (s : session) (id : Z) (t : CropTable) : crop_reply * CropTable :=
  if negb (logged_in_session s) then (CropUnauthorized, t)
  else
    match s !! "userid" with
    | None => (DatabaseError, t)
    | Some userid =>
        let mine (row : CropRow) :=
          (crop_id row =? id)%Z && String.eqb (crop_userid row) userid in
        if existsb mine (user_crops t) then
          (CropDeleted,
           {| user_crops := filter (fun row => mine row = false) (user_crops t);
              last_crop_id := last_crop_id t |})
        else (CropNotFound, t)
    end.

End Crops.

(** ** The crop filter of the dashboard *)

(** A cell of the catalog as pandas holds it: a number, a text, or NaN for a
    missing value. *)
Inductive cell : Type :=
| CNum (n : pynum)
| CText (s : string)
| CNaN.

#[global] Instance pynum_eq_dec : EqDecision pynum.
Proof. solve_decision. Defined.
#[global] Instance cell_eq_dec : EqDecision cell.
Proof. solve_decision. Defined.

(** A data frame: its column names, which are distinct, and its rows in
    index order, each a dict from column name to cell. *)
Record DataFrame : Type := {
  df_columns : list string;
  df_rows : list (gmap string cell)
}.

(** [row[col]]; a cell that is missing reads as NaN. *)
Definition row_get (row : gmap string cell) (col : string) : cell :=
  default CNaN (row !! col).

(** The separators of [_tokenize_categories]: one of [/,;|-]. *)
Definition is_separator (c : ascii) : bool :=
  Ascii.eqb c "/" || Ascii.eqb c "," || Ascii.eqb c ";" || Ascii.eqb c "|" || Ascii.eqb c "-".

(** [re.split(r'[/,;|\-]+', s)]: the pieces between the runs of separators;
    [piece] is the piece being read and [in_run] tells that the last byte
    read was a separator. *)
Fixpoint split_on_separators (piece : string) (in_run : bool) (s : string) : list string :=
  match s with
  | EmptyString => [piece]
  | String c rest =>
      if is_separator c then
        if in_run then split_on_separators piece true rest
        else piece :: split_on_separators EmptyString true rest
      else split_on_separators (piece ++ String c EmptyString) false rest
  end.

Section CropFilter.
Context `{FloatStr}.

(** Python's [str.strip] and [str.lower], and what [_num] does with a text
    that is not empty: the regular expression for ranges, which yields the
    midpoint, then [float], with NaN ([None]) when both fail.  Nothing is
    assumed of the three. *)
Variable strip : string -> string.
Variable lower : string -> string.
Variable parse_number : string -> option Q.

(** [str(x)] for a cell *)
Definition cell_str (c : cell) : string :=
  match c with
  | CNum n => py_str (num_pyval n)
  | CText s => s
  | CNaN => "nan"
  end.

(** [_num(x)]: [None] is NaN.  The text of a number parses back to it. *)
Definition _num (x : cell) : option Q :=
  match x with
  | CNum n => Some (num_value n)
  | CNaN => None
  | CText s =>
      let s := strip s in
      if str_empty s then None else parse_number s
  end.

(** [_norm(s)] *)
Definition _norm (s : string) : string := lower (strip s).

(** [_tokenize_categories(cell)] *)
Definition _tokenize_categories (c : cell) : list string :=
  omap (fun p => if str_empty (_norm p) then None else Some (_norm p))
       (split_on_separators EmptyString false (cell_str c)).

(** The float a coerced column holds for a cell. *)
Definition float_cell (x : option Q) : cell :=
  match x with
  | Some q => CNum (NFloat q)
  | None => CNaN
  end.

(** The number in a cell of a float column; NaN has none, and every
    comparison with it is false. *)
Definition cell_float (c : cell) : option Q :=
  match c with
  | CNum n => Some (num_value n)
  | _ => None
  end.

Definition cell_le (c : cell) (x : Q) : bool :=
  match cell_float c with
  | Some q => Qle_bool q x
  | None => false
  end.

Definition cell_ge (c : cell) (x : Q) : bool :=
  match cell_float c with
  | Some q => Qle_bool x q
  | None => false
  end.

(** [col in df.columns] *)
Definition has_column (df : DataFrame) (col : string) : bool :=
  bool_decide (col ∈ df_columns df).

(** [next((c for c in names if c in df.columns), None)] *)
Definition first_column (df : DataFrame) (names : list string) : option string :=
  List.find (has_column df) names.

(** The columns the block coerces with [_num], in the order of its loop. *)
Definition numeric_columns (df : DataFrame) : list string :=
  let col_min_hum := first_column df ["Min Humidity"; "Min Humidity "] in
  let col_max_hum := first_column df ["Max Humidity"; "Max Humidity "] in
  (["Min Temp"; "Max temp"] ++ option_list col_min_hum ++ option_list col_max_hum ++
   ["Total Water ( mm )"])%list.

(** [df[col] = df[col].map(_num)] on one row, for each of those columns that
    exists. *)
Definition coerce_row (df : DataFrame) (row : gmap string cell) : gmap string cell :=
  foldl (fun row col =>
           if has_column df col then <[col := float_cell (_num (row_get row col))]> row
           else row)
        row (numeric_columns df).

(** The mask of one coerced row. *)
Definition row_mask (df : DataFrame) (soil : SoilSnapshot) (live_bucket : string)
    (selected_soil : option string) (row : gmap string cell) : bool :=
  let col_min_hum := first_column df ["Min Humidity"; "Min Humidity "] in
  let col_max_hum := first_column df ["Max Humidity"; "Max Humidity "] in
  let live_t := soil_temperature soil in
  let live_h := soil_humidity soil in
  (if has_column df "Min Temp" then cell_le (row_get row "Min Temp") live_t else true) &&
  (if has_column df "Max temp" then cell_ge (row_get row "Max temp") live_t else true) &&
  (match col_min_hum with
   | Some col => cell_le (row_get row col) live_h
   | None => true
   end) &&
  (match col_max_hum with
   | Some col => cell_ge (row_get row col) live_h
   | None => true
   end) &&
  (if has_column df "Soil Moisture" && negb (String.eqb live_bucket "unknown") then
     existsb (String.eqb live_bucket) (_tokenize_categories (row_get row "Soil Moisture"))
   else true) &&
  (match selected_soil with
   | Some selected =>
       if negb (str_empty selected) && has_column df "Soil Type" then
         String.eqb (lower (strip (cell_str (row_get row "Soil Type")))) (_norm selected)
       else true
   | None => true
   end) &&
  (if has_column df "Crop" then
     match row_get row "Crop" with CNaN => false | _ => true end
   else true).

(** Lines 743-794 of [dashboard]: the rows recommended, as the dicts of
    [to_dict(orient="records")]. *)
Definition crop_filter (CROPS_DF : DataFrame) (soil : SoilSnapshot) (live_bucket : string)
    (selected_soil : option string) : list (gmap string cell) :=
  let rows := coerce_row CROPS_DF <$> df_rows CROPS_DF in
  List.filter (row_mask CROPS_DF soil live_bucket selected_soil) rows.

End CropFilter.

(** ** Vocabulary of the further statements *)

(** Whether the byte [c] occurs in [s]. *)
Fixpoint contains_char (c : ascii) (s : string) : bool :=
  match s with
  | EmptyString => false
  | String c' rest => Ascii.eqb c' c || contains_char c rest
  end.

(** The calls of [add_alert] made by a run of requests, one after the other;
    an exception ends the request that made the call, not the run. *)
Definition record_all (calls : list (option alert * option string)) (st : AppState) : AppState :=
  foldl (fun st call => (add_alert call.1 call.2 st).2) st calls.

(** Stand-ins for [str.strip] and [str.isdigit], exact on the text of the
    examples (ASCII, no surrounding blanks). *)
Definition no_blanks (s : string) : string := s.

Fixpoint all_digits (s : string) : bool :=
  match s with
  | EmptyString => true
  | String c rest =>
      let n := nat_of_ascii c in
      (48 <=? n)%nat && (n <=? 57)%nat && all_digits rest
  end.

Definition ascii_isdigit (s : string) : bool := negb (str_empty s) && all_digits s.

Definition sample_form : RegisterForm :=
  {| form_userid := "1001"; form_name := "Asha"; form_password := "s3cret";
     form_phone := "9876543210" |}.

Definition sample_session : session :=
  {[ "username" := "Asha"; "userid" := "1001" ]}.

Definition sample_crop_request : CropRequest :=
  {| json_crop_name := Some "Maize"; json_soil_type := Some "Loamy";
     json_start_date := Some "2025-06-01"; json_water_requirement := Returned 500%Q |}.

Definition empty_crops : CropTable := {| user_crops := []; last_crop_id := 0 |}.
Definition empty_state : AppState := {| FARMER_ALERTS := []; alert_history := [] |}.

(** Stand-in for the parse of a text by [_num], exact on the catalog of the
    examples, where no text is a number or a range. *)
Definition no_text_numbers (s : string) : option Q := None.

Definition maize_row : gmap string cell :=
  {[ "Crop" := CText "Maize"; "Soil Type" := CText "Loamy";
     "Soil Moisture" := CText "Low/Medium";
     "Min Temp" := CNum (NInt 18); "Max temp" := CNum (NInt 30);
     "Min Humidity " := CNum (NInt 40); "Max Humidity " := CNum (NInt 70) ]}.

Definition rice_row : gmap string cell :=
  {[ "Crop" := CText "Rice"; "Soil Type" := CText "Clay";
     "Soil Moisture" := CText "Flooded";
     "Min Temp" := CNum (NInt 20); "Max temp" := CNum (NInt 35);
     "Min Humidity " := CNum (NInt 60); "Max Humidity " := CNum (NInt 90) ]}.

Definition tea_row : gmap string cell :=
  {[ "Crop" := CText "Tea"; "Soil Type" := CText "Loamy";
     "Soil Moisture" := CText "low";
     "Min Temp" := CText "n/a"; "Max temp" := CNum (NInt 30);
     "Min Humidity " := CNum (NInt 40); "Max Humidity " := CNum (NInt 70) ]}.

Definition sample_catalog : DataFrame :=
  {| df_columns := ["Crop"; "Soil Type"; "Soil Moisture"; "Min Temp"; "Max temp";
                    "Min Humidity "; "Max Humidity "];
     df_rows := [maize_row; rice_row; tea_row] |}.

(** * Properties *)

(** ** The fetchers *)

(** The soil is absent exactly when the request to the ESP32 failed; the
    weather and the forecast fall back to their defaults instead. *)
Lemma get_soil_data_absent_iff (esp32 : exc Esp32Json) :
  get_soil_data esp32 = None <-> exists e, esp32 = Raised e.
Proof.
  destruct esp32 as [j|e]; simpl; split; try done; eauto.
  intros [e He]. discriminate He.
Qed.

Lemma get_weather_data_default (e : exn) : get_weather_data (Raised e) = default_weather.
Proof. reflexivity. Qed.

Lemma get_weather_forecast_default (e : exn) : get_weather_forecast (Raised e) = [].
Proof. reflexivity. Qed.

(** ** Rounding *)

Lemma py_round_lower (x : Q) (a : Z) : (inject_Z a <= x)%Q -> (a <= py_round x)%Z.
Proof.
  intros Hx. unfold py_round.
  assert (a <= Qfloor x)%Z.
  { rewrite <- (Qfloor_Z a). by apply Qfloor_resp_le. }
  destruct (_ ?= _)%Q; [destruct (Z.even _)|..]; lia.
Qed.

Lemma py_round_upper (x : Q) (b : Z) : (x <= inject_Z b)%Q -> (py_round x <= b)%Z.
Proof.
  intros Hx. unfold py_round.
  assert (Hf : (Qfloor x <= b)%Z).
  { rewrite <- (Qfloor_Z b). by apply Qfloor_resp_le. }
  destruct (Z.eq_dec (Qfloor x) b) as [Heq|Hne].
  - assert (Hlt : (x - inject_Z (Qfloor x) < 1 # 2)%Q) by (rewrite Heq; lra).
    rewrite Qlt_alt in Hlt. rewrite Hlt. lia.
  - destruct (_ ?= _)%Q; [destruct (Z.even _)|..]; lia.
Qed.

#[global] Instance py_round_comp : Proper (Qeq ==> eq) py_round.
Proof.
  intros x y Hxy. unfold py_round.
  rewrite (Qfloor_comp _ _ Hxy).
  assert (Hc : ((x - inject_Z (Qfloor y) ?= 1 # 2) = (y - inject_Z (Qfloor y) ?= 1 # 2))%Q)
    by (by rewrite Hxy).
  by rewrite Hc.
Qed.

Lemma py_round_cases (x : Q) :
  let f := Qfloor x in
  (inject_Z f <= x)%Q /\ (x < inject_Z f + 1)%Q /\
  (((x - inject_Z f < 1 # 2)%Q /\ py_round x = f) \/
   ((1 # 2 < x - inject_Z f)%Q /\ py_round x = (f + 1)%Z) \/
   ((x - inject_Z f == 1 # 2)%Q /\ py_round x = if Z.even f then f else (f + 1)%Z)).
Proof.
  intros f. split; [apply Qfloor_le|]. split.
  { pose proof (Qlt_floor x) as Hlt. rewrite inject_Z_plus in Hlt. exact Hlt. }
  unfold py_round. fold f.
  destruct (Qcompare_spec (x - inject_Z f) (1 # 2)) as [Heq|Hlt|Hgt]; auto.
Qed.

Lemma py_round_100 (x : Q) : (x <= 100)%Q -> py_round x = 100%Z <-> (199 # 2 <= x)%Q.
Proof.
  intros Hx.
  destruct (py_round_cases x) as (Hlo & Hhi & Hcases).
  set (f := Qfloor x) in *.
  assert (Hf : (f <= 100)%Z).
  { subst f. rewrite <- (Qfloor_Z 100). by apply Qfloor_resp_le. }
  split.
  - intros Hr.
    assert (f = 99 \/ f = 100)%Z as [Hv|Hv].
    { destruct Hcases as [[_ Hv]|[[_ Hv]|[_ Hv]]]; rewrite Hv in Hr;
        [|  |destruct (Z.even f)]; lia. }
    + rewrite Hv in *. unfold inject_Z in *.
      destruct Hcases as [[Hc Hr']|[[Hc Hr']|[Hc Hr']]]; [lia|lra|lra].
    + rewrite Hv in *. unfold inject_Z in *. lra.
  - intros Hge.
    assert (Hf99 : (99 <= f)%Z).
    { subst f. rewrite <- (Qfloor_Z 99). apply Qfloor_resp_le. unfold inject_Z. lra. }
    assert (f = 99 \/ f = 100)%Z as [Hv|Hv] by lia; rewrite Hv in *;
      unfold inject_Z in *.
    + destruct Hcases as [[Hc Hr]|[[Hc Hr]|[Hc Hr]]]; [lra|done|done].
    + destruct Hcases as [[Hc Hr]|[[Hc Hr]|[Hc Hr]]]; [done|lra|lra].
Qed.

(** ** Clamping *)

Lemma py_min_spec (a b : Q) :
  ((b < a)%Q /\ py_min a b = b) \/ ((a <= b)%Q /\ py_min a b = a).
Proof.
  unfold py_min, Qlt_bool. destruct (Qle_bool a b) eqn:E; simpl.
  - right. split; [by apply Qle_bool_iff|done].
  - left. split; [|done]. apply Qnot_le_lt. intros Hle.
    apply Qle_bool_iff in Hle. congruence.
Qed.

Lemma py_max_spec (a b : Q) :
  ((a < b)%Q /\ py_max a b = b) \/ ((b <= a)%Q /\ py_max a b = a).
Proof.
  unfold py_max, Qgt_bool. destruct (Qle_bool b a) eqn:E; simpl.
  - right. split; [by apply Qle_bool_iff|done].
  - left. split; [|done]. apply Qnot_le_lt. intros Hle.
    apply Qle_bool_iff in Hle. congruence.
Qed.

Lemma percent_linear (H : Q) : (H / TANK_H1_CM * 100 == H * (200 # 19))%Q.
Proof. unfold TANK_H1_CM. field. Qed.

Lemma tank_height_spec (u : Q) :
  let H := py_max 0 (py_min TANK_H1_CM (TANK_H1_CM - u)) in
  ((u <= 0)%Q /\ H = TANK_H1_CM) \/
  ((0 < u)%Q /\ (u < TANK_H1_CM)%Q /\ H = (TANK_H1_CM - u)%Q) \/
  ((TANK_H1_CM <= u)%Q /\ H = 0%Q).
Proof.
  intros H. subst H.
  destruct (py_min_spec TANK_H1_CM (TANK_H1_CM - u)) as [[Hlt ->]|[Hle ->]].
  - destruct (py_max_spec 0 (TANK_H1_CM - u)) as [[Hpos ->]|[Hneg ->]].
    + right; left. split; [lra|split; [lra|done]].
    + right; right. split; [lra|done].
  - left. split; [lra|].
    destruct (py_max_spec 0 TANK_H1_CM) as [[_ ->]|[Hneg _]]; [done|].
    unfold TANK_H1_CM in Hneg. lra.
Qed.

Lemma get_tank_snapshot_reading (j : Esp32Json) (u : Q) :
  json_ultrasonic_cm j = Some u ->
  get_tank_snapshot (Returned j) = Returned (tank_geometry u).
Proof. intros Hu. unfold get_tank_snapshot. simpl. by rewrite Hu. Qed.

Lemma tank_percent_eq (u H : Q) :
  H = py_max 0 (py_min TANK_H1_CM (TANK_H1_CM - u)) ->
  percent (tank_geometry u) = py_round (H * (200 # 19)).
Proof. intros ->. simpl. by rewrite percent_linear. Qed.




Lemma py_clamp_Qminmax (a b : Q) : (py_max 0 (py_min a b) == Qmax 0 (Qmin a b))%Q.
Proof.
  destruct (py_min_spec a b) as [[Hlt ->]|[Hle ->]];
  destruct (Q.min_spec a b) as [[Hm ->]|[Hm ->]]; try lra.
  - destruct (py_max_spec 0 b) as [[? ->]|[? ->]];
    destruct (Q.max_spec 0 b) as [[? ->]|[? ->]]; lra.
  - destruct (py_max_spec 0 a) as [[? ->]|[? ->]];
    destruct (Q.max_spec 0 a) as [[? ->]|[? ->]]; lra.
  - assert (Hab : (a == b)%Q) by lra. rewrite <- Hab.
    destruct (py_max_spec 0 a) as [[? ->]|[? ->]];
    destruct (Q.max_spec 0 a) as [[? ->]|[? ->]]; lra.
Qed.

#[global] Instance py_round2_comp : Proper (Qeq ==> Qeq) py_round2.
Proof. intros x y Hxy. unfold py_round2. by rewrite Hxy. Qed.

Lemma py_round2_bounds (x : Q) (lo hi : Z) :
  (inject_Z lo <= x * 100)%Q -> (x * 100 <= inject_Z hi)%Q ->
  (inject_Z lo * (1 # 100) <= py_round2 x <= inject_Z hi * (1 # 100))%Q.
Proof.
  intros Hlo Hhi. unfold py_round2.
  pose proof (py_round_lower _ _ Hlo) as H1.
  pose proof (py_round_upper _ _ Hhi) as H2.
  rewrite Zle_Qle in H1, H2.
  change (inject_Z (py_round (x * 100)) / 100)%Q
    with (inject_Z (py_round (x * 100)) * (1 # 100))%Q.
  lra.
Qed.




(** ** Comparisons *)

Lemma Qgt_bool_cases (x y : Q) :
  (Qgt_bool x y = true /\ (y < x)%Q) \/ (Qgt_bool x y = false /\ (x <= y)%Q).
Proof.
  unfold Qgt_bool. destruct (Qle_bool x y) eqn:E; simpl.
  - right. split; [done|]. by apply Qle_bool_iff.
  - left. split; [done|]. apply Qnot_le_lt. intros Hle.
    apply Qle_bool_iff in Hle. congruence.
Qed.

Lemma Qlt_bool_cases (x y : Q) :
  (Qlt_bool x y = true /\ (x < y)%Q) \/ (Qlt_bool x y = false /\ (y <= x)%Q).
Proof. apply (Qgt_bool_cases y x). Qed.

Lemma Qge_bool_cases (x y : Q) :
  (Qge_bool x y = true /\ (y <= x)%Q) \/ (Qge_bool x y = false /\ (x < y)%Q).
Proof.
  unfold Qge_bool. destruct (Qle_bool y x) eqn:E.
  - left. split; [done|]. by apply Qle_bool_iff.
  - right. split; [done|]. apply Qnot_le_lt. intros Hle.
    apply Qle_bool_iff in Hle. congruence.
Qed.

(** Decide one comparison of the goal and record the order fact it gives. *)
Ltac decide_cmp c :=
  let E := fresh "E" in
  let Hord := fresh "Hord" in
  lazymatch c with
  | Qgt_bool ?x ?y => destruct (Qgt_bool_cases x y) as [[E Hord]|[E Hord]]
  | Qlt_bool ?x ?y => destruct (Qlt_bool_cases x y) as [[E Hord]|[E Hord]]
  | Qge_bool ?x ?y => destruct (Qge_bool_cases x y) as [[E Hord]|[E Hord]]
  end; rewrite E; clear E.

(** Case analysis on the guards of a tree, one after the other. *)
Ltac split_guards :=
  repeat match goal with
         | |- context [if ?c then _ else _] => destruct c
         end.

(** Close the branch a tree has taken: the alert is the one returned, and
    every guard that contradicts the recorded order facts is vacuous. *)
Ltac close_branch :=
  eexists; split; [reflexivity|];
  intuition (try lra); try assumption;
  repeat match goal with
         | Hex : exists _, _ /\ _ |- _ => destruct Hex as (? & ? & ?)
         end;
  simplify_eq; try lra; reflexivity.

(** ** Rainfall aggregates *)

Lemma foldl_Qplus_comp (l : list Q) (a b : Q) :
  (a == b)%Q -> (foldl Qplus a l == foldl Qplus b l)%Q.
Proof.
  revert a b. induction l as [|x l IH]; intros a b Hab; simpl; [exact Hab|].
  apply IH. by rewrite Hab.
Qed.

Lemma foldl_Qplus_shift (l : list Q) (a b : Q) :
  (foldl Qplus (a + b) l == a + foldl Qplus b l)%Q.
Proof.
  revert b. induction l as [|x l IH]; intros b; simpl; [reflexivity|].
  rewrite <- IH. apply foldl_Qplus_comp. ring.
Qed.

(** The running total of [sum] is the sum of the rain values. *)
Lemma total_rain_of_sum (forecast : list ForecastPoint) :
  (total_rain_of forecast == foldr Qplus 0 (forecast_rain <$> forecast))%Q.
Proof.
  unfold total_rain_of. induction forecast as [|p rest IH]; simpl; [reflexivity|].
  rewrite <- IH, <- foldl_Qplus_shift. apply foldl_Qplus_comp. ring.
Qed.

Lemma foldl_py_max_spec (l : list Q) (a : Q) :
  foldl py_max a l ∈ a :: l /\
  forall x, x ∈ a :: l -> (x <= foldl py_max a l)%Q.
Proof.
  revert a. induction l as [|y l IH]; intros a; simpl.
  - split; [apply list_elem_of_here|].
    intros x Hx. apply list_elem_of_singleton in Hx as ->. lra.
  - destruct (IH (py_max a y)) as [Hin Hub]. split.
    + apply elem_of_cons in Hin as [Heq|Hin].
      * rewrite Heq. destruct (py_max_spec a y) as [[_ ->]|[_ ->]].
        -- apply list_elem_of_further, list_elem_of_here.
        -- apply list_elem_of_here.
      * by do 2 apply list_elem_of_further.
    + intros x Hx.
      assert (Hstep : (a <= py_max a y)%Q /\ (y <= py_max a y)%Q)
        by (destruct (py_max_spec a y) as [[? ->]|[? ->]]; lra).
      destruct Hstep as [Ha Hy].
      assert (Htop : (py_max a y <= foldl py_max (py_max a y) l)%Q)
        by apply Hub, list_elem_of_here.
      apply elem_of_cons in Hx as [->|Hx]; [lra|].
      apply elem_of_cons in Hx as [->|Hx]; [lra|].
      by apply Hub, list_elem_of_further.
Qed.

(** On a forecast that is not empty, [max] picks one of the rain values, and
    none exceeds it. *)
Lemma max_rain_of_spec (forecast : list ForecastPoint) :
  forecast <> [] ->
  (exists p, p ∈ forecast /\ forecast_rain p = max_rain_of forecast) /\
  (forall p, p ∈ forecast -> (forecast_rain p <= max_rain_of forecast)%Q).
Proof.
  destruct forecast as [|p0 rest]; [done|]. intros _.
  unfold max_rain_of. cbn [fmap list_fmap].
  destruct (foldl_py_max_spec (forecast_rain <$> rest) (forecast_rain p0)) as [Hin Hub].
  split.
  - change (forecast_rain p0 :: (forecast_rain <$> rest))
      with (forecast_rain <$> (p0 :: rest)) in Hin.
    apply list_elem_of_fmap in Hin as (p & Hp & Hin). eauto.
  - intros p Hp. apply Hub.
    change (forecast_rain p0 :: (forecast_rain <$> rest))
      with (forecast_rain <$> (p0 :: rest)).
    apply list_elem_of_fmap. eauto.
Qed.

(** ** The alert sink *)

Lemma falsy_iff (a : option alert) : falsy a = true <-> a = None \/ a = Some ∅.
Proof.
  destruct a as [d|]; simpl; [|by split; [left|]].
  rewrite bool_decide_eq_true, map_size_empty_iff.
  split; [intros ->; by right|]. by intros [?|[= ->]].
Qed.

Lemma well_formed_alert_truthy (d : alert) : well_formed_alert d -> falsy (Some d) = false.
Proof.
  intros Hwf. apply not_true_iff_false. rewrite falsy_iff.
  intros [?| [= ->]]; [done|].
  apply Forall_cons in Hwf as [[v Hv] _]. by rewrite lookup_empty in Hv.
Qed.

(** The row written for a well-formed alert: each column is the field of the
    alert it is read from, and [type] falls back to ["unknown"]. *)
Lemma alert_row_well_formed (d : alert) (userid : option string) :
  well_formed_alert d <->
  exists row, alert_row d userid = Returned row.
Proof.
  unfold well_formed_alert, history_fields, alert_row, subscript.
  rewrite !Forall_cons, Forall_nil. split.
  - intros ([? ->] & [? ->] & [? ->] & [? ->] & [? ->] & _). eexists. reflexivity.
  - intros [row Hrow].
    destruct (d !! "title"); [|done]. destruct (d !! "message"); [|done].
    destruct (d !! "severity"); [|done]. destruct (d !! "category"); [|done].
    destruct (d !! "timestamp"); [|done]. by repeat split.
Qed.

Lemma alert_row_columns (d : alert) (userid : option string) (row : AlertRow) :
  alert_row d userid = Returned row ->
  row_userid row = userid /\
  row_alert_type row = default (VStr "unknown") (d !! "type") /\
  d !! "title" = Some (row_title row) /\
  d !! "message" = Some (row_message row) /\
  d !! "severity" = Some (row_severity row) /\
  d !! "category" = Some (row_category row) /\
  d !! "timestamp" = Some (row_created_at row).
Proof.
  unfold alert_row, subscript.
  destruct (d !! "title"); [|done]. destruct (d !! "message"); [|done].
  destruct (d !! "severity"); [|done]. destruct (d !! "category"); [|done].
  destruct (d !! "timestamp"); [|done].
  cbn [mbind exc_bind mret exc_ret]. intros [= <-]. by repeat split.
Qed.

Lemma add_alert_falsy (a : option alert) (userid : option string) (st : AppState) :
  falsy a = true -> add_alert a userid st = (Returned (), st).
Proof. intros Hf. unfold add_alert. destruct a; [by rewrite Hf|done]. Qed.

Lemma add_alert_truthy (d : alert) (userid : option string) (st : AppState) (row : AlertRow) :
  falsy (Some d) = false ->
  alert_row d userid = Returned row ->
  add_alert (Some d) userid st =
    (Returned (),
     {| FARMER_ALERTS := FARMER_ALERTS st ++ [d];
        alert_history := alert_history st ++ [row] |}).
Proof.
  intros Hf Hrow. unfold add_alert, save_alert_to_db. by rewrite Hf, Hrow.
Qed.

(** A dict that is not empty but lacks one of those fields is appended to
    the feed before the INSERT raises [KeyError]: the history is unchanged.
    No caller of [add_alert] builds such a dict. *)
Lemma add_alert_missing_field (d : alert) (userid : option string) (st : AppState) :
  falsy (Some d) = false ->
  ~ well_formed_alert d ->
  add_alert (Some d) userid st =
    (Raised KeyError,
     {| FARMER_ALERTS := FARMER_ALERTS st ++ [d];
        alert_history := alert_history st |}).
Proof.
  intros Hf Hwf. unfold add_alert, save_alert_to_db. rewrite Hf.
  destruct (alert_row d userid) as [row|e] eqn:Hrow.
  - exfalso. apply Hwf. apply (alert_row_well_formed d userid). eauto.
  - assert (He : e = KeyError); [|by rewrite He].
    revert Hrow. unfold alert_row, subscript.
    destruct (d !! "title"); [|by intros [= <-]].
    destruct (d !! "message"); [|by intros [= <-]].
    destruct (d !! "severity"); [|by intros [= <-]].
    destruct (d !! "category"); [|by intros [= <-]].
    destruct (d !! "timestamp"); [|by intros [= <-]].
    discriminate.
Qed.


Section TreeProperties.
Context `{FloatStr}.

(** C4: once the tank read has succeeded the tank tree returns one alert,
    chosen by the first matching threshold on [percent]; its message carries
    [percent], [volume_cm3] and [capacity_cm3] of the snapshot. *)
Theorem tank_alert_first_match (snap : TankSnapshot) (ts : string) :
  exists a : alert,
    check_water_tank_alert (Returned snap) ts = Some a /\
    a !! "message" = Some (VStr (tank_message snap)) /\
    category_is a "water" /\
    timestamp_is a ts /\
    ((90 <= percent snap)%Z ->
       severity_is a "high" /\ title_is a "💧 Water Tank Full") /\
    ((percent snap <= 20)%Z ->
       severity_is a "high" /\ title_is a "⚠️ Water Tank Low") /\
    ((20 < percent snap <= 40)%Z ->
       severity_is a "medium" /\ title_is a "🔔 Water Tank Getting Low") /\
    ((40 < percent snap < 90)%Z ->
       severity_is a "low" /\ title_is a "💧 Water Tank Status Update").
Proof.
  unfold check_water_tank_alert.
  destruct (Z.geb_spec (percent snap) 90) as [Hfull|Hfull];
    [|destruct (Z.leb_spec (percent snap) 20) as [Hlow|Hlow];
      [|destruct (Z.leb_spec (percent snap) 40) as [Hmid|Hmid]]];
  eexists; (split; [reflexivity|]);
  repeat split; try lia; reflexivity.
Qed.

(** ** The irrigation-recommendation tree *)

Lemma irrigation_rules_total (weather : WeatherSnapshot) (soil : option SoilSnapshot)
    (forecast : list ForecastPoint) :
  match forecast with [] => 0%Q | _ => total_rain_of forecast end = total_rain_of forecast.
Proof. by destruct forecast. Qed.


(** Establish the shape of a literal alert whose severity is picked by [sev]. *)
Ltac prove_shape sev :=
  split; [reflexivity|];
  split; [reflexivity|];
  split; [sev; reflexivity|];
  split; [reflexivity|];
  eexists; reflexivity.

Lemma irrigation_rules_shape (weather : WeatherSnapshot) (soil : option SoilSnapshot)
    (forecast : list ForecastPoint) (ts : string) :
  irrigation_alert_shape (irrigation_rules weather soil forecast ts) ts.
Proof.
  unfold irrigation_rules, irrigation_alert_shape. cbv zeta.
  unfold severity_is, category_is, timestamp_is.
  destruct (_ || _ || _); [prove_shape ltac:(right; right)|].
  destruct (_ || _ || _); [prove_shape ltac:(right; left)|].
  destruct soil; [destruct (_ && _ && _ && _)|]; prove_shape ltac:(left).
Qed.

Lemma weather_unavailable_alert_shape (ts : string) :
  irrigation_alert_shape (weather_unavailable_alert ts) ts.
Proof. prove_shape ltac:(right; left). Qed.

Lemma irrigation_tree_shape (weather_call : exc WeatherSnapshot)
    (soil_call : exc (option SoilSnapshot)) (forecast_call : exc (list ForecastPoint))
    (ts : string) :
  irrigation_alert_shape
    (check_weather_irrigation_recommendation weather_call soil_call forecast_call ts) ts.
Proof.
  unfold check_weather_irrigation_recommendation.
  destruct weather_call as [weather|e1]; [destruct soil_call as [soil|e2];
    [destruct forecast_call as [forecast|e3]|]|];
    cbn [mbind exc_bind mret exc_ret try_except];
    first [apply irrigation_rules_shape | apply weather_unavailable_alert_shape].
Qed.

(** C6: whatever the three fetches do, the tree returns an alert, and when one
    of them raises the alert is the medium-severity "Weather Data
    Unavailable" one of category irrigation.  The result type of the tree is
    [alert]: no outcome of it is an exception. *)
Theorem irrigation_never_raises (weather_call : exc WeatherSnapshot)
    (soil_call : exc (option SoilSnapshot)) (forecast_call : exc (list ForecastPoint))
    (ts : string) :
  let a := check_weather_irrigation_recommendation weather_call soil_call forecast_call ts in
  irrigation_alert_shape a ts /\
  ((exists e, weather_call = Raised e) \/ (exists e, soil_call = Raised e) \/
   (exists e, forecast_call = Raised e) ->
   a = weather_unavailable_alert ts /\
   severity_is a "medium" /\ category_is a "irrigation" /\
   title_is a "⚠️ Weather Data Unavailable") /\
  (forall weather soil forecast,
     weather_call = Returned weather -> soil_call = Returned soil ->
     forecast_call = Returned forecast ->
     a = irrigation_rules weather soil forecast ts).
Proof.
  cbv zeta. split; [apply irrigation_tree_shape|].
  unfold check_weather_irrigation_recommendation.
  destruct weather_call as [weather|e1]; [destruct soil_call as [soil|e2];
    [destruct forecast_call as [forecast|e3]|]|];
    cbn [mbind exc_bind mret exc_ret try_except].
  - split.
    + intros [[e He]|[[e He]|[e He]]]; discriminate.
    + intros ??? [= <-] [= <-] [= <-]. reflexivity.
  - split; [|intros; discriminate]. intros _. by repeat split.
  - split; [|intros; discriminate]. intros _. by repeat split.
  - split; [|intros; discriminate]. intros _. by repeat split.
Qed.

(** ** Evaluating a tree twice *)

Ltac prove_well_formed :=
  split; [repeat constructor; eexists; reflexivity|reflexivity].

Lemma evaluate_restamp (t : tree_call) (ts1 ts2 : string) :
  evaluate t ts2 = (fun a : alert => <["timestamp" := VStr ts2]> a) <$> evaluate t ts1.
Proof.
  destruct t as [forecast w soil|snapshot|wc sc fc]; simpl.
  - unfold check_rain_alert. destruct forecast as [|p rest]; [done|].
    cbv beta iota zeta. destruct soil as [s|]; simpl; split_guards; reflexivity.
  - unfold check_water_tank_alert. destruct snapshot as [snap|e]; [|done].
    cbv beta iota zeta. split_guards; reflexivity.
  - f_equal. unfold check_weather_irrigation_recommendation.
    destruct wc as [w|]; [destruct sc as [soil|]; [destruct fc as [forecast|]|]|];
      try reflexivity.
    cbn [mbind exc_bind mret exc_ret try_except]. unfold irrigation_rules.
    cbv beta iota zeta. destruct soil as [s|]; split_guards; reflexivity.
Qed.

Lemma evaluate_well_formed (t : tree_call) (ts : string) (a : alert) :
  evaluate t ts = Some a -> well_formed_alert a /\ timestamp_is a ts.
Proof.
  unfold timestamp_is.
  destruct t as [forecast w soil|snapshot|wc sc fc]; simpl.
  - unfold check_rain_alert. destruct forecast as [|p rest]; [done|].
    cbv beta iota zeta. destruct soil as [s|]; simpl; split_guards;
      intros [= <-]; prove_well_formed.
  - unfold check_water_tank_alert. destruct snapshot as [snap|e]; [|done].
    cbv beta iota zeta. split_guards; intros [= <-]; prove_well_formed.
  - intros [= <-].
    destruct (irrigation_tree_shape wc sc fc ts) as (Hcat & Hts & _ & _ & Hrow).
    split; [|done]. by apply (alert_row_well_formed _ None).
Qed.


End TreeProperties.

(** ** Examples of the trees *)

(** The cases listed among the testable properties of the specification. *)
Example rain_tree_heavy :
  (fun a : alert => a !! "severity") <$>
    check_rain_alert (H := one_decimal) [forecast_point 6] default_weather None sample_ts
  = Some (Some (VStr "high")).
Proof. reflexivity. Qed.

Example rain_tree_dry_soil :
  (fun a : alert => (a !! "type", a !! "severity")) <$>
    check_rain_alert (H := one_decimal) [forecast_point 0] default_weather
      (Some (sample_soil 35)) sample_ts
  = Some (Some (VStr "irrigation_alert"), Some (VStr "medium")).
Proof. reflexivity. Qed.

Example rain_tree_absent_soil :
  (fun a : alert => (a !! "title", a !! "severity", a !! "message")) <$>
    check_rain_alert (H := one_decimal) [forecast_point 0] default_weather None sample_ts
  = Some (Some (VStr "🌤 Good Weather Day"), Some (VStr "low"), Some (VStr "Clear weather.")).
Proof. reflexivity. Qed.

Example rain_tree_message :
  (fun a : alert => a !! "message") <$>
    check_rain_alert (H := one_decimal) [forecast_point 1.5]
      {| weather_temperature := 18; weather_humidity := 91;
         weather_rainfall := NFloat 0.3; weather_wind_speed := 4 |}
      None sample_ts
  = Some (Some (VStr "Rain expected. Conditions: 18°C, 91%, 0.3mm, 4 km/h.")).
Proof. reflexivity. Qed.

Example tank_tree_thresholds :
  let title_at (p : Z) :=
    (fun a : alert => (a !! "title", a !! "severity")) <$>
      check_water_tank_alert (H := one_decimal)
        (Returned {| ultrasonic_cm := 0; height_cm := 0; volume_cm3 := 0;
                     capacity_cm3 := 702; percent := p |}) sample_ts in
  title_at 95%Z = Some (Some (VStr "💧 Water Tank Full"), Some (VStr "high")) /\
  title_at 15%Z = Some (Some (VStr "⚠️ Water Tank Low"), Some (VStr "high")) /\
  title_at 35%Z = Some (Some (VStr "🔔 Water Tank Getting Low"), Some (VStr "medium")) /\
  title_at 60%Z = Some (Some (VStr "💧 Water Tank Status Update"), Some (VStr "low")).
Proof. by repeat split. Qed.

Example tank_tree_offline :
  check_water_tank_alert (H := one_decimal)
    (get_tank_snapshot (Raised RequestException)) sample_ts = None.
Proof. reflexivity. Qed.

Example tank_tree_live_message :
  (fun a : alert => a !! "message") <$>
    check_water_tank_alert (H := one_decimal)
      (get_tank_snapshot (Returned (esp32_reading 3))) sample_ts
  = Some (Some (VStr "Water tank is at 68% (481 cm³ / 702 cm³).")).
Proof. reflexivity. Qed.




(** ** The dashboard *)

(** C8: the bucket of a moisture percentage follows the breakpoints 90, 70
    and 40, and the bucket is [unknown] only when there is no number. *)
Theorem moisture_bucket_breakpoints (m : Q) :
  ((90 <= m)%Q -> _moisture_bucket_from_pct (Some m) = "flooded") /\
  ((70 < m)%Q /\ (m < 90)%Q -> _moisture_bucket_from_pct (Some m) = "high") /\
  ((40 <= m)%Q /\ (m <= 70)%Q -> _moisture_bucket_from_pct (Some m) = "medium") /\
  ((m < 40)%Q -> _moisture_bucket_from_pct (Some m) = "low") /\
  (forall pct, _moisture_bucket_from_pct pct = "unknown" <-> pct = None).
Proof.
  unfold _moisture_bucket_from_pct.
  repeat split.
  - intros Hm. decide_cmp (Qge_bool m 90); [done|lra].
  - intros [Hlo Hhi]. decide_cmp (Qge_bool m 90); [lra|].
    decide_cmp (Qgt_bool m 70); [done|lra].
  - intros [Hlo Hhi]. decide_cmp (Qge_bool m 90); [lra|].
    decide_cmp (Qgt_bool m 70); [lra|]. decide_cmp (Qge_bool m 40); [done|lra].
  - intros Hm. decide_cmp (Qge_bool m 90); [lra|].
    decide_cmp (Qgt_bool m 70); [lra|]. decide_cmp (Qge_bool m 40); [lra|done].
  - destruct pct as [v|]; [|done]. split_guards; discriminate.
  - by intros ->.
Qed.

Section DashboardProperties.
Context `{FloatStr} {CropRecord Catalog : Type}.
Variable crop_mask :
  Catalog -> SoilSnapshot -> string -> option string -> exc (list CropRecord).
Variable crop_name : CropRecord -> option string.

(** With live soil data the page never shows the category [Unknown]. *)
Lemma live_category_known (s : SoilSnapshot) :
  let live_bucket := _moisture_bucket_from_pct (Some (soil_moisture s)) in
  (if String.eqb live_bucket "unknown" then "Unknown" else capitalize live_bucket)
    <> "Unknown".
Proof.
  unfold _moisture_bucket_from_pct. cbv zeta.
  destruct (Qge_bool _ 90); [|destruct (Qgt_bool _ 70); [|destruct (Qge_bool _ 40)]];
    intros Heq; vm_compute in Heq; discriminate Heq.
Qed.

(** C7: when [get_soil_data] returns [None] the dashboard recommends no
    crop, whatever the catalog, the weather and the selected soil type are,
    and it tells the user so: it flashes the no-live-data warning and shows
    the category [Unknown], neither of which a request with live soil data
    produces, even one for which no crop matches. *)
Theorem dashboard_absent_soil (esp32 : exc Esp32Json) (weather : WeatherSnapshot)
    (selected_soil : option string) (CROPS_DF : Catalog) :
  get_soil_data esp32 = None ->
  let r := dashboard crop_mask crop_name true (get_soil_data esp32) weather
             selected_soil CROPS_DF in
  (exists data,
     response r = Render "dashboard.html" data selected_soil /\
     data_crops data = [] /\ data_soil data = None /\
     data_soil_category data = "Unknown") /\
  session_recommended_crops r = Some [] /\
  flashed r =
    [("No live soil sensor data. Connect ESP32 to see crop recommendations.", "warning")] /\
  (forall s weather' selected_soil' CROPS_DF',
     let r' := dashboard crop_mask crop_name true (Some s) weather' selected_soil'
                 CROPS_DF' in
     flashed r' = [] /\
     exists data',
       response r' = Render "dashboard.html" data' selected_soil' /\
       data_soil data' = Some s /\
       data_soil_category data' <> "Unknown" /\
       data_crops data' = try_except (crop_mask CROPS_DF' s
         (_moisture_bucket_from_pct (Some (soil_moisture s))) selected_soil') []).
Proof.
  intros ->. cbv zeta. unfold dashboard. cbn [negb].
  split; [eexists; by repeat split|]. split; [done|]. split; [done|].
  intros s weather' selected_soil' CROPS_DF'. split; [done|].
  eexists. split; [reflexivity|]. cbn [data_soil data_soil_category data_crops].
  split; [done|]. split; [apply live_category_known|done].
Qed.

End DashboardProperties.

Lemma dashboard_absent_soil_witness :
  let no_match : list string -> SoilSnapshot -> string -> option string -> exc (list string) :=
    fun _ _ _ _ => Returned [] in
  let r := dashboard (H := one_decimal) no_match Some true
             (get_soil_data (Raised RequestException)) default_weather None ["Maize"] in
  flashed r =
    [("No live soil sensor data. Connect ESP32 to see crop recommendations.", "warning")] /\
  session_recommended_crops r = Some [] /\
  flashed (dashboard (H := one_decimal) no_match Some true (Some (sample_soil 35))
             default_weather None ["Maize"]) = [].
Proof.
  cbv zeta.
  destruct (dashboard_absent_soil (H := one_decimal) (fun _ _ _ _ => Returned []) Some
              (Raised RequestException) default_weather None ["Maize"] eq_refl)
    as (_ & Hsession & Hflash & Hlive).
  split; [exact Hflash|]. split; [exact Hsession|].
  exact (proj1 (Hlive (sample_soil 35) default_weather None ["Maize"])).
Defined.

(** * Further properties *)

(** ** Tank geometry, for every reading *)

Lemma py_round_monotone (x y : Q) : (x <= y)%Q -> (py_round x <= py_round y)%Z.
Proof.
  intros Hxy.
  destruct (py_round_cases x) as (Hxl & Hxh & Hx).
  destruct (py_round_cases y) as (Hyl & Hyh & Hy).
  pose proof (Qfloor_resp_le _ _ Hxy) as Hf.
  set (f := Qfloor x) in *. set (g := Qfloor y) in *.
  destruct (Z.eq_dec f g) as [Hfg|Hfg].
  - rewrite <- Hfg in *.
    destruct Hx as [[Hcx ->]|[[Hcx ->]|[Hcx ->]]];
    destruct Hy as [[Hcy ->]|[[Hcy ->]|[Hcy ->]]];
      try lia; try lra; destruct (Z.even f); lia.
  - assert (Hlt : (f + 1 <= g)%Z) by lia.
    assert (Hrx : (py_round x <= f + 1)%Z).
    { destruct Hx as [[_ ->]|[[_ ->]|[_ ->]]]; [lia|lia|destruct (Z.even f); lia]. }
    assert (Hry : (g <= py_round y)%Z).
    { destruct Hy as [[_ ->]|[[_ ->]|[_ ->]]]; [lia|lia|destruct (Z.even g); lia]. }
    lia.
Qed.

(** An even integer attracts the ties on both of its sides. *)
Lemma py_round_le_even (x : Q) (n : Z) :
  Z.even n = true -> (py_round x <= n)%Z <-> (x <= inject_Z n + (1 # 2))%Q.
Proof.
  intros Heven.
  destruct (py_round_cases x) as (Hlo & Hhi & Hc).
  set (f := Qfloor x) in *.
  assert (Hinj : forall a b : Z, (a <= b)%Z -> (inject_Z a <= inject_Z b)%Q)
    by (intros; by rewrite <- Zle_Qle).
  assert (Hplus : forall a : Z, (inject_Z (a + 1) == inject_Z a + 1)%Q)
    by (intros; by rewrite inject_Z_plus).
  split.
  - intros Hr.
    destruct (Z_lt_le_dec f n) as [Hfn|Hfn].
    + assert (H1 := Hinj (f + 1)%Z n ltac:(lia)). rewrite Hplus in H1. lra.
    + destruct Hc as [[Hcx Hv]|[[Hcx Hv]|[Hcx Hv]]].
      * assert (f = n) as -> by lia. lra.
      * lia.
      * destruct (Z.even f) eqn:He; [|lia]. assert (f = n) as -> by lia. lra.
  - intros Hx.
    destruct (Z_lt_le_dec f n) as [Hfn|Hfn].
    + destruct Hc as [[_ ->]|[[_ ->]|[_ ->]]]; [lia|lia|destruct (Z.even f); lia].
    + destruct (Z.eq_dec f n) as [->|Hne].
      * destruct Hc as [[_ ->]|[[Hcx _]|[_ ->]]]; [lia|lra|by rewrite Heven].
      * assert (H1 := Hinj (n + 1)%Z f ltac:(lia)). rewrite Hplus in H1. lra.
Qed.

Lemma py_round_ge_even (x : Q) (n : Z) :
  Z.even n = true -> (n <= py_round x)%Z <-> (inject_Z n - (1 # 2) <= x)%Q.
Proof.
  intros Heven.
  destruct (py_round_cases x) as (Hlo & Hhi & Hc).
  set (f := Qfloor x) in *.
  assert (Hinj : forall a b : Z, (a <= b)%Z -> (inject_Z a <= inject_Z b)%Q)
    by (intros; by rewrite <- Zle_Qle).
  assert (Hplus : forall a : Z, (inject_Z (a + 1) == inject_Z a + 1)%Q)
    by (intros; by rewrite inject_Z_plus).
  assert (Hodd : forall a : Z, (a + 1 = n)%Z -> Z.even a = false).
  { intros a Ha. rewrite <- Ha in Heven. rewrite Z.even_add in Heven.
    destruct (Z.even a); [done|reflexivity]. }
  split.
  - intros Hr.
    destruct (Z_lt_le_dec f n) as [Hfn|Hfn].
    + destruct Hc as [[Hcx Hv]|[[Hcx Hv]|[Hcx Hv]]].
      * lia.
      * assert (f + 1 = n)%Z as Hfn1 by lia. rewrite <- Hfn1, Hplus. lra.
      * assert (f + 1 = n)%Z as Hfn1.
        { destruct (Z.even f); lia. }
        rewrite <- Hfn1, Hplus. lra.
    + assert (H1 := Hinj n f Hfn). lra.
  - intros Hx.
    destruct (Z_lt_le_dec f n) as [Hfn|Hfn].
    + assert (Hf1 : (f + 1 = n)%Z).
      { destruct (Z_lt_le_dec (f + 1) n) as [Hlt|Hge]; [|lia].
        assert (H1 := Hinj (f + 1 + 1)%Z n ltac:(lia)). rewrite !Hplus in H1. lra. }
      rewrite <- Hf1 in Hx. rewrite Hplus in Hx.
      destruct Hc as [[Hcx _]|[[_ ->]|[_ ->]]]; [lra|lia|].
      rewrite (Hodd f Hf1). lia.
    + destruct Hc as [[_ ->]|[[_ ->]|[_ ->]]]; [lia|lia|destruct (Z.even f); lia].
Qed.

Lemma get_tank_snapshot_returned (esp32 : exc Esp32Json) (snap : TankSnapshot) :
  get_tank_snapshot esp32 = Returned snap <->
  exists j u, esp32 = Returned j /\ json_ultrasonic_cm j = Some u /\ snap = tank_geometry u.
Proof.
  unfold get_tank_snapshot. split.
  - destruct esp32 as [j|e]; [|done]. cbn [mbind exc_bind].
    destruct (json_ultrasonic_cm j) as [u|] eqn:Hu; [|done].
    cbn [mbind exc_bind mret exc_ret]. intros [= <-]. eauto.
  - intros (j & u & -> & Hu & ->). cbn [mbind exc_bind]. by rewrite Hu.
Qed.

Lemma base_area_value : (PI_CONST * TANK_R_CM * TANK_R_CM == 103499 # 1400)%Q.
Proof. reflexivity. Qed.

Lemma tank_height_range (u : Q) :
  let H := py_max 0 (py_min TANK_H1_CM (TANK_H1_CM - u)) in
  (0 <= H)%Q /\ (H <= 19 # 2)%Q.
Proof.
  intros H. subst H.
  destruct (tank_height_spec u) as [[_ E]|[(? & ? & E)|[_ E]]];
    simpl in E; rewrite E; unfold TANK_H1_CM in *; lra.
Qed.

Lemma tank_height_antitone (u1 u2 : Q) :
  (u1 <= u2)%Q ->
  (py_max 0 (py_min TANK_H1_CM (TANK_H1_CM - u2)) <=
   py_max 0 (py_min TANK_H1_CM (TANK_H1_CM - u1)))%Q.
Proof.
  intros Hu.
  destruct (tank_height_spec u1) as [[? E1]|[(? & ? & E1)|[? E1]]];
  destruct (tank_height_spec u2) as [[? E2]|[(? & ? & E2)|[? E2]]];
    simpl in E1, E2; rewrite E1, E2; unfold TANK_H1_CM in *; lra.
Qed.

(** X1: whatever the ESP32 reports, the snapshot stays within the tank:
    the height lies in [0, H1], the percentage in 0..100, and the volume in
    0..capacity, the capacity being 702 cm³. *)
Theorem tank_snapshot_within_tank (esp32 : exc Esp32Json) (snap : TankSnapshot) :
  get_tank_snapshot esp32 = Returned snap ->
  ((0 <= height_cm snap)%Q /\ (height_cm snap <= TANK_H1_CM)%Q) /\
  (0 <= percent snap <= 100)%Z /\
  (0 <= volume_cm3 snap <= capacity_cm3 snap)%Z /\
  capacity_cm3 snap = 702%Z.
Proof.
  intros (j & u & _ & _ & ->)%get_tank_snapshot_returned.
  destruct (tank_height_range u) as [Hlo Hhi].
  set (H := py_max 0 (py_min TANK_H1_CM (TANK_H1_CM - u))) in *.
  change (height_cm (tank_geometry u)) with (py_round2 H).
  rewrite (tank_percent_eq u H eq_refl).
  change (volume_cm3 (tank_geometry u))
    with (py_round (PI_CONST * TANK_R_CM * TANK_R_CM * H)).
  change (capacity_cm3 (tank_geometry u)) with 702%Z.
  rewrite base_area_value.
  split; [|split; [|split; [|done]]].
  - destruct (py_round2_bounds H 0 950) as [H1 H2];
      unfold TANK_H1_CM, inject_Z in *; lra.
  - split; [apply py_round_lower|apply py_round_upper]; unfold inject_Z; lra.
  - split; [apply py_round_lower; unfold inject_Z; lra|].
    change 702%Z with (py_round ((103499 # 1400) * (19 # 2))).
    apply py_round_monotone. lra.
Qed.

Lemma tank_snapshot_within_tank_witness :
  ((0 <= height_cm (tank_geometry 3))%Q /\ (height_cm (tank_geometry 3) <= TANK_H1_CM)%Q) /\
  (0 <= percent (tank_geometry 3) <= 100)%Z /\
  (0 <= volume_cm3 (tank_geometry 3) <= capacity_cm3 (tank_geometry 3))%Z /\
  capacity_cm3 (tank_geometry 3) = 702%Z.
Proof.
  apply (tank_snapshot_within_tank (Returned (esp32_reading 3))). reflexivity.
Defined.

(** X2: a larger distance to the water never raises the level shown: the
    height, the volume and the percentage of the snapshot do not increase
    with the reading. *)
Theorem tank_snapshot_antitone (u1 u2 : Q) :
  (u1 <= u2)%Q ->
  (height_cm (tank_geometry u2) <= height_cm (tank_geometry u1))%Q /\
  (volume_cm3 (tank_geometry u2) <= volume_cm3 (tank_geometry u1))%Z /\
  (percent (tank_geometry u2) <= percent (tank_geometry u1))%Z.
Proof.
  intros Hu. pose proof (tank_height_antitone u1 u2 Hu) as HH.
  set (H1 := py_max 0 (py_min TANK_H1_CM (TANK_H1_CM - u1))) in *.
  set (H2 := py_max 0 (py_min TANK_H1_CM (TANK_H1_CM - u2))) in *.
  rewrite (tank_percent_eq u1 H1 eq_refl), (tank_percent_eq u2 H2 eq_refl).
  change (height_cm (tank_geometry u1)) with (py_round2 H1).
  change (height_cm (tank_geometry u2)) with (py_round2 H2).
  change (volume_cm3 (tank_geometry u1))
    with (py_round (PI_CONST * TANK_R_CM * TANK_R_CM * H1)).
  change (volume_cm3 (tank_geometry u2))
    with (py_round (PI_CONST * TANK_R_CM * TANK_R_CM * H2)).
  rewrite !base_area_value.
  split; [|split].
  - unfold py_round2.
    assert (Hr : (py_round (H2 * 100) <= py_round (H1 * 100))%Z)
      by (apply py_round_monotone; lra).
    rewrite Zle_Qle in Hr.
    change (inject_Z (py_round (H2 * 100)) / 100)%Q
      with (inject_Z (py_round (H2 * 100)) * (1 # 100))%Q.
    change (inject_Z (py_round (H1 * 100)) / 100)%Q
      with (inject_Z (py_round (H1 * 100)) * (1 # 100))%Q.
    lra.
  - apply py_round_monotone. lra.
  - apply py_round_monotone. lra.
Qed.

Lemma tank_snapshot_antitone_witness :
  (height_cm (tank_geometry 5) <= height_cm (tank_geometry 3))%Q /\
  (volume_cm3 (tank_geometry 5) <= volume_cm3 (tank_geometry 3))%Z /\
  (percent (tank_geometry 5) <= percent (tank_geometry 3))%Z.
Proof. apply (tank_snapshot_antitone 3 5). lra. Defined.

(** X3: readings outside the tank are clamped.  A reading of zero or below
    is shown as a full tank (height [H1], 100 percent, volume equal to the
    capacity); a reading of [H1] or more as an empty one (height, percentage
    and volume all 0). *)
Theorem tank_out_of_range_reading (u : Q) :
  ((u <= 0)%Q ->
     (height_cm (tank_geometry u) == TANK_H1_CM)%Q /\
     percent (tank_geometry u) = 100%Z /\
     volume_cm3 (tank_geometry u) = capacity_cm3 (tank_geometry u)) /\
  ((TANK_H1_CM <= u)%Q ->
     (height_cm (tank_geometry u) == 0)%Q /\
     percent (tank_geometry u) = 0%Z /\
     volume_cm3 (tank_geometry u) = 0%Z).
Proof.
  split; intros Hu;
    (destruct (tank_height_spec u) as [[? E]|[(? & ? & E)|[? E]]];
     simpl in E; unfold TANK_H1_CM in *; try lra);
    simpl; unfold TANK_H1_CM; rewrite E; by repeat split.
Qed.

(** ** The tank tree, from the reading to the alert *)

Section TankTreeProperties.
Context `{FloatStr}.

Lemma tank_alert_title (snap : TankSnapshot) (ts : string) :
  exists a : alert,
    check_water_tank_alert (Returned snap) ts = Some a /\
    (title_is a "💧 Water Tank Full" <-> (90 <= percent snap)%Z) /\
    (title_is a "⚠️ Water Tank Low" <-> (percent snap <= 20)%Z) /\
    (title_is a "🔔 Water Tank Getting Low" <-> (20 < percent snap <= 40)%Z) /\
    (title_is a "💧 Water Tank Status Update" <-> (40 < percent snap < 90)%Z).
Proof.
  unfold check_water_tank_alert, title_is.
  destruct (Z.geb_spec (percent snap) 90) as [Hfull|Hfull];
    [|destruct (Z.leb_spec (percent snap) 20) as [Hlow|Hlow];
      [|destruct (Z.leb_spec (percent snap) 40) as [Hmid|Hmid]]];
  eexists; (split; [reflexivity|]);
  (split; [|split; [|split]]);
  (split;
   [intros Ht; first [lia | vm_compute in Ht; discriminate Ht]
   |intros Hp; first [reflexivity | exfalso; lia]]).
Qed.



End TankTreeProperties.


(** ** The translation helper *)

Section UnderscoreProperties.
Context `{FloatStr}.

Lemma string_app_cons (c : ascii) (s rest : string) :
  String c s ++ rest = String c (s ++ rest).
Proof. reflexivity. Qed.

Lemma string_app_nil_r (s : string) : s ++ "" = s.
Proof. induction s as [|c s IH]; [done|]. by rewrite string_app_cons, IH. Qed.

Lemma string_app_assoc (s1 s2 s3 : string) : (s1 ++ s2) ++ s3 = s1 ++ (s2 ++ s3).
Proof. induction s1 as [|c s1 IH]; [done|]. by rewrite !string_app_cons, IH. Qed.

Lemma percent_format_plain (s rest : string) (kwargs : list (string * pyval)) :
  contains_char "%" s = false ->
  percent_format Literal (s ++ rest) kwargs =
    (fun tail => s ++ tail) <$> percent_format Literal rest kwargs.
Proof.
  induction s as [|c s IH]; intros Hs.
  - change ("" ++ rest) with rest.
    destruct (percent_format Literal rest kwargs); reflexivity.
  - cbn [contains_char] in Hs. apply orb_false_elim in Hs as [Hc Hs].
    rewrite string_app_cons. cbn [percent_format]. rewrite Hc, (IH Hs).
    destruct (percent_format Literal rest kwargs); reflexivity.
Qed.

Lemma percent_format_key (k acc rest : string) (kwargs : list (string * pyval)) :
  contains_char ")" k = false ->
  percent_format (InKey acc) (k ++ String ")" rest) kwargs =
    percent_format (AfterKey (acc ++ k)) rest kwargs.
Proof.
  revert acc. induction k as [|c k IH]; intros acc Hk.
  - rewrite string_app_nil_r. reflexivity.
  - cbn [contains_char] in Hk. apply orb_false_elim in Hk as [Hc Hk].
    rewrite string_app_cons. cbn [percent_format]. rewrite Hc, (IH _ Hk).
    by rewrite string_app_assoc.
Qed.

Lemma percent_format_directive (k rest : string) (kwargs : list (string * pyval)) :
  contains_char ")" k = false ->
  percent_format Literal ("%(" ++ k ++ ")s" ++ rest) kwargs =
    (v ← kwargs_get k kwargs;
     tail ← percent_format Literal rest kwargs;
     Some (py_str v ++ tail)).
Proof.
  intros Hk.
  change ("%(" ++ k ++ ")s" ++ rest) with (String "%" (String "(" (k ++ String ")" (String "s" rest)))).
  cbn [percent_format Ascii.eqb Bool.eqb].
  rewrite (percent_format_key k "" _ kwargs Hk). reflexivity.
Qed.

Lemma percent_format_plain_end (s : string) (kwargs : list (string * pyval)) :
  contains_char "%" s = false -> percent_format Literal s kwargs = Some s.
Proof.
  intros Hs. rewrite <- (string_app_nil_r s) at 1.
  rewrite (percent_format_plain s "" kwargs Hs).
  cbn [percent_format fmap option_fmap option_map]. by rewrite string_app_nil_r.
Qed.

(** X6: a template with one [%(key)s] directive between plain text, the key
    free of parentheses.  With the key among the keyword arguments the directive is replaced by [str] of its
    value; with the key missing the formatting fails and the template comes
    back unchanged, directive included. *)
Theorem underscore_one_directive (pre key post : string) (kwargs : list (string * pyval)) :
  kwargs <> [] ->
  contains_char "%" pre = false ->
  contains_char "(" key = false ->
  contains_char ")" key = false ->
  contains_char "%" post = false ->
  underscore (pre ++ "%(" ++ key ++ ")s" ++ post) kwargs =
    match kwargs_get key kwargs with
    | Some v => pre ++ py_str v ++ post
    | None => pre ++ "%(" ++ key ++ ")s" ++ post
    end.
Proof.
  intros Hkw Hpre _ Hkey Hpost. unfold underscore.
  destruct kwargs as [|kv kwargs]; [done|].
  rewrite (percent_format_plain pre _ _ Hpre), (percent_format_directive key post _ Hkey).
  rewrite (percent_format_plain_end post _ Hpost).
  by destruct (kwargs_get key (kv :: kwargs)).
Qed.

(** X7: text without a percent sign passes through [_] unchanged, whatever
    the keyword arguments; a doubled percent sign is reduced to one only when
    keyword arguments are given, and is kept doubled when there are none. *)
Theorem underscore_percent_escape (pre post : string) (kwargs : list (string * pyval)) :
  contains_char "%" pre = false ->
  contains_char "%" post = false ->
  underscore pre kwargs = pre /\
  underscore (pre ++ "%%" ++ post) [] = pre ++ "%%" ++ post /\
  (kwargs <> [] -> underscore (pre ++ "%%" ++ post) kwargs = pre ++ "%" ++ post).
Proof.
  intros Hpre Hpost. split; [|split].
  - unfold underscore. destruct kwargs; [done|].
    by rewrite (percent_format_plain_end pre _ Hpre).
  - reflexivity.
  - intros Hkw. unfold underscore. destruct kwargs as [|kv kwargs]; [done|].
    rewrite (percent_format_plain pre _ _ Hpre).
    change ("%%" ++ post) with (String "%" (String "%" post)).
    cbn [percent_format Ascii.eqb Bool.eqb].
    by rewrite (percent_format_plain_end post _ Hpost).
Qed.

End UnderscoreProperties.

Lemma underscore_one_directive_witness :
  underscore (H := one_decimal) ("Soil " ++ "%(" ++ "m" ++ ")s" ++ " now") [("m", VInt 35)] =
    "Soil 35 now".
Proof.
  apply (underscore_one_directive (H := one_decimal) "Soil " "m" " now" [("m", VInt 35)]);
    [discriminate|reflexivity|reflexivity|reflexivity|reflexivity].
Defined.

Lemma underscore_percent_escape_witness :
  underscore (H := one_decimal) "50" [("m", VInt 35)] = "50" /\
  underscore (H := one_decimal) ("50" ++ "%%" ++ " off") [] = "50" ++ "%%" ++ " off" /\
  (([("m", VInt 35)] : list (string * pyval)) <> [] ->
   underscore (H := one_decimal) ("50" ++ "%%" ++ " off") [("m", VInt 35)] =
     "50" ++ "%" ++ " off").
Proof.
  apply (underscore_percent_escape (H := one_decimal) "50" " off" [("m", VInt 35)]);
    reflexivity.
Defined.

(** ** A device that answers without a soil reading *)

Section SoilDefaultProperties.
Context `{FloatStr}.


End SoilDefaultProperties.


(** ** The alert sink, beyond well-formed alerts *)

Lemma add_alert_cases (d : alert) (userid : option string) (st : AppState) :
  (d = ∅ /\ add_alert (Some d) userid st = (Returned (), st)) \/
  (d <> ∅ /\ well_formed_alert d /\
   exists row, alert_row d userid = Returned row /\
     add_alert (Some d) userid st =
       (Returned (),
        {| FARMER_ALERTS := FARMER_ALERTS st ++ [d];
           alert_history := alert_history st ++ [row] |})) \/
  (d <> ∅ /\ ~ well_formed_alert d /\
   add_alert (Some d) userid st =
     (Raised KeyError,
      {| FARMER_ALERTS := FARMER_ALERTS st ++ [d];
         alert_history := alert_history st |})).
Proof.
  destruct (falsy (Some d)) eqn:Hf.
  - left. apply falsy_iff in Hf as [?|[= ->]]; [done|].
    split; [done|]. by apply add_alert_falsy.
  - right.
    assert (Hne : d <> ∅).
    { intros ->. apply not_true_iff_false in Hf. apply Hf, falsy_iff. by right. }
    destruct (alert_row d userid) as [row|e] eqn:Hrow.
    + left. split; [done|]. split; [apply (alert_row_well_formed d userid); eauto|].
      exists row. split; [done|]. by apply add_alert_truthy.
    + right. split; [done|].
      assert (Hwf : ~ well_formed_alert d).
      { intros [row Hr]%(alert_row_well_formed d userid). congruence. }
      split; [done|]. by apply add_alert_missing_field.
Qed.


Lemma record_all_snoc (calls : list (option alert * option string))
    (call : option alert * option string) (st : AppState) :
  record_all (calls ++ [call])%list st =
    (add_alert call.1 call.2 (record_all calls st)).2.
Proof. unfold record_all. by rewrite foldl_app. Qed.

Lemma add_alert_extends (a : option alert) (userid : option string) (st : AppState) :
  exists new_alerts new_rows,
    FARMER_ALERTS (add_alert a userid st).2 = (FARMER_ALERTS st ++ new_alerts)%list /\
    alert_history (add_alert a userid st).2 = (alert_history st ++ new_rows)%list /\
    new_alerts = (if falsy a then [] else option_list a) /\
    (length new_rows <= length new_alerts)%nat.
Proof.
  destruct a as [d|].
  - destruct (add_alert_cases d userid st)
      as [[Hd ->]|[(Hd & Hwf & row & _ & ->)|(Hd & Hwf & ->)]]; cbn [snd].
    + exists [], []. rewrite !app_nil_r. subst d. by repeat split.
    + exists [d], [row]. rewrite (well_formed_alert_truthy d Hwf). by repeat split.
    + exists [d], []. rewrite app_nil_r.
      assert (Hf : falsy (Some d) = false).
      { apply not_true_iff_false. rewrite falsy_iff. by intros [?|[= ?]]. }
      rewrite Hf. repeat split. simpl. lia.
  - exists [], []. rewrite !app_nil_r. by repeat split.
Qed.

(** X10: the sink only ever appends.  After any run of [add_alert] calls,
    raising ones included, the feed and the history still begin with what
    they held before; the entries added to the feed are the truthy
    arguments, in call order, and no more rows than entries are added. *)
Theorem sink_is_append_only (calls : list (option alert * option string)) (st : AppState) :
  exists new_alerts new_rows,
    FARMER_ALERTS (record_all calls st) = (FARMER_ALERTS st ++ new_alerts)%list /\
    alert_history (record_all calls st) = (alert_history st ++ new_rows)%list /\
    new_alerts = omap (fun call => if falsy call.1 then None else call.1) calls /\
    (length new_rows <= length new_alerts <= length calls)%nat.
Proof.
  induction calls as [|call calls IH] using rev_ind.
  - exists [], []. rewrite !app_nil_r. by repeat split.
  - destruct IH as (new_alerts & new_rows & Hfeed & Hhist & Hnew & Hlen).
    rewrite record_all_snoc.
    destruct (add_alert_extends call.1 call.2 (record_all calls st))
      as (more_alerts & more_rows & Hfeed' & Hhist' & Hmore & Hlen').
    exists (new_alerts ++ more_alerts)%list, (new_rows ++ more_rows)%list.
    rewrite Hfeed', Hhist', Hfeed, Hhist, <- !app_assoc.
    split; [done|]. split; [done|]. split.
    + rewrite omap_app, <- Hnew. f_equal. rewrite Hmore. simpl.
      destruct (falsy call.1); [done|]. by destruct call.1.
    + rewrite !length_app. simpl.
      assert (length more_alerts <= 1)%nat.
      { rewrite Hmore. destruct (falsy call.1); [simpl; lia|].
        destruct call.1; simpl; lia. }
      lia.
Qed.

(** ** The scheduler jobs *)

Section SchedulerProperties.
Context `{FloatStr}.

Lemma add_alert_well_formed (d : alert) (st : AppState) :
  well_formed_alert d ->
  exists row,
    alert_row d None = Returned row /\
    add_alert (Some d) None st =
      (Returned (),
       {| FARMER_ALERTS := FARMER_ALERTS st ++ [d];
          alert_history := alert_history st ++ [row] |}).
Proof.
  intros Hwf. pose proof (well_formed_alert_truthy d Hwf) as Ht.
  apply (alert_row_well_formed d None) in Hwf as [row Hrow].
  exists row. split; [done|]. by apply add_alert_truthy.
Qed.

Lemma rain_alert_well_formed (forecast : list ForecastPoint) (w : WeatherSnapshot)
    (soil : option SoilSnapshot) (ts : string) (a : alert) :
  check_rain_alert forecast w soil ts = Some a -> well_formed_alert a /\ timestamp_is a ts.
Proof. apply (evaluate_well_formed (RainTree forecast w soil) ts a). Qed.

Lemma tank_alert_well_formed (snapshot : exc TankSnapshot) (ts : string) (a : alert) :
  check_water_tank_alert snapshot ts = Some a -> well_formed_alert a /\ timestamp_is a ts.
Proof. apply (evaluate_well_formed (TankTree snapshot) ts a). Qed.

Lemma irrigation_alert_well_formed (wc : exc WeatherSnapshot) (sc : exc (option SoilSnapshot))
    (fc : exc (list ForecastPoint)) (ts : string) :
  well_formed_alert (check_weather_irrigation_recommendation wc sc fc ts).
Proof. by apply (evaluate_well_formed (IrrigationTree wc sc fc) ts). Qed.

Lemma rain_alert_none_iff (forecast : list ForecastPoint) (w : WeatherSnapshot)
    (soil : option SoilSnapshot) (ts : string) :
  check_rain_alert forecast w soil ts = None <-> forecast = [].
Proof.
  destruct forecast as [|p rest]; [done|]. split; [|done].
  unfold check_rain_alert. cbv beta iota zeta.
  destruct soil as [s|]; simpl; split_guards; discriminate.
Qed.

Lemma tank_alert_none_iff (snapshot : exc TankSnapshot) (ts : string) :
  check_water_tank_alert snapshot ts = None <-> exists e, snapshot = Raised e.
Proof.
  destruct snapshot as [snap|e].
  - destruct (tank_alert_title snap ts) as (a & -> & _).
    split; [done|]. by intros [e He].
  - split; [eauto|done].
Qed.

Lemma tank_offline_notice_well_formed (ts : string) :
  well_formed_alert (tank_offline_notice ts).
Proof. repeat constructor; eexists; reflexivity. Qed.

Lemma daily_weather_update_well_formed (w : WeatherSnapshot) (ts : string) :
  well_formed_alert (daily_weather_update w ts).
Proof. repeat constructor; eexists; reflexivity. Qed.

(** X11: the tank job always records exactly one alert and never raises:
    the tank alert of the live snapshot when the read succeeds, and
    otherwise the low-severity "Water Tank Status" notice that the sensor is
    offline. *)
Theorem generate_water_tank_alert_records_one (snapshot : exc TankSnapshot)
    (ts : string) (st : AppState) :
  exists a row,
    generate_water_tank_alert snapshot ts st =
      (Returned (),
       {| FARMER_ALERTS := FARMER_ALERTS st ++ [a];
          alert_history := alert_history st ++ [row] |}) /\
    alert_row a None = Returned row /\
    category_is a "water" /\
    (forall snap, snapshot = Returned snap ->
       check_water_tank_alert snapshot ts = Some a /\
       a !! "message" = Some (VStr (tank_message snap))) /\
    (forall e, snapshot = Raised e ->
       a = tank_offline_notice ts /\
       a !! "type" = Some (VStr "water_status") /\
       severity_is a "low" /\ title_is a "💧 Water Tank Status").
Proof.
  unfold generate_water_tank_alert. cbv zeta.
  destruct snapshot as [snap|e].
  - destruct (check_water_tank_alert (Returned snap) ts) as [a|] eqn:Ha;
      [|apply tank_alert_none_iff in Ha as [e He]; discriminate].
    destruct (tank_alert_well_formed _ _ _ Ha) as [Hwf _].
    rewrite (well_formed_alert_truthy a Hwf).
    destruct (add_alert_well_formed a st Hwf) as (row & Hrow & ->).
    exists a, row. split; [done|]. split; [done|].
    revert Ha. unfold check_water_tank_alert. cbv beta iota zeta.
    split_guards; intros [= <-]; (split; [reflexivity|]);
      (split; [intros ? [= <-]; by split|intros; discriminate]).
  - cbn [check_water_tank_alert falsy].
    destruct (add_alert_well_formed _ st (tank_offline_notice_well_formed ts))
      as (row & Hrow & ->).
    exists (tank_offline_notice ts), row.
    split; [done|]. split; [done|]. split; [reflexivity|].
    split; [intros; discriminate|]. intros _ _. by repeat split.
Qed.


End SchedulerProperties.

(** ** The alert routes *)

Section RouteProperties.
Context `{FloatStr}.

Lemma add_and_append_well_formed (d : alert) (created : list alert) (st : AppState) :
  well_formed_alert d ->
  exists row,
    alert_row d None = Returned row /\
    add_and_append (Some d) created st =
      (Returned (created ++ [d])%list,
       {| FARMER_ALERTS := FARMER_ALERTS st ++ [d];
          alert_history := alert_history st ++ [row] |}).
Proof.
  intros Hwf. unfold add_and_append, act_bind, act_ret.
  rewrite (well_formed_alert_truthy d Hwf).
  destruct (add_alert_well_formed d st Hwf) as (row & Hrow & ->). eauto.
Qed.

Lemma add_and_append_tree (a : option alert) (created : list alert) (st : AppState) :
  (forall d, a = Some d -> well_formed_alert d) ->
  exists rows,
    add_and_append a created st =
      (Returned (created ++ option_list a)%list,
       {| FARMER_ALERTS := FARMER_ALERTS st ++ option_list a;
          alert_history := alert_history st ++ rows |}) /\
    length rows = length (option_list a).
Proof.
  intros Hwf. destruct a as [d|].
  - destruct (add_and_append_well_formed d created st (Hwf d eq_refl)) as (row & _ & ->).
    by exists [row].
  - exists []. cbn [option_list]. rewrite !app_nil_r. by destruct st.
Qed.


(** X14: a logged-in call of the irrigation-recommendation route always
    answers "success" with the alert it recorded; its "no_alert" answer is
    never given. *)
Theorem manual_irrigation_always_success
    (weather_call : exc WeatherSnapshot) (soil_call : exc (option SoilSnapshot))
    (forecast_call : exc (list ForecastPoint)) (ts : string) (st : AppState) :
  let a := check_weather_irrigation_recommendation weather_call soil_call forecast_call ts in
  exists row,
    manual_weather_irrigation_recommendation true weather_call soil_call forecast_call ts st =
      (Returned (AlertReply (Some a)),
       {| FARMER_ALERTS := FARMER_ALERTS st ++ [a];
          alert_history := alert_history st ++ [row] |}) /\
    alert_row a None = Returned row.
Proof.
  cbv zeta. unfold manual_weather_irrigation_recommendation. cbn [negb].
  pose proof (irrigation_alert_well_formed weather_call soil_call forecast_call ts) as Hwf.
  rewrite (well_formed_alert_truthy _ Hwf). unfold act_bind, act_ret.
  destruct (add_alert_well_formed _ st Hwf) as (row & Hrow & ->). eauto.
Qed.

(** X15: a logged-in call of the tank route.  When the read inside the tree
    succeeds the alert is recorded and returned.  When it fails nothing is
    recorded, and the answer depends on a second read: the live values
    under "no_alert" if that one succeeds, the 502 "Sensor offline" answer
    if it fails too. *)
Theorem manual_water_tank_alert_outcomes (snapshot second_read : exc TankSnapshot)
    (ts : string) (st : AppState) :
  (forall snap, snapshot = Returned snap ->
     exists a row,
       check_water_tank_alert snapshot ts = Some a /\
       manual_water_tank_alert true snapshot second_read ts st =
         (Returned (AlertReply (Some a)),
          {| FARMER_ALERTS := FARMER_ALERTS st ++ [a];
             alert_history := alert_history st ++ [row] |})) /\
  (forall e snap, snapshot = Raised e -> second_read = Returned snap ->
     manual_water_tank_alert true snapshot second_read ts st =
       (Returned (TankStatusReply (tank_message snap) (percent snap) (height_cm snap)
                    (volume_cm3 snap) (capacity_cm3 snap)), st)) /\
  (forall e e', snapshot = Raised e -> second_read = Raised e' ->
     manual_water_tank_alert true snapshot second_read ts st =
       (Returned (SensorOfflineReply "Sensor offline. Unable to read tank."), st)).
Proof.
  unfold manual_water_tank_alert. cbn [negb]. split; [|split].
  - intros snap ->.
    destruct (check_water_tank_alert (Returned snap) ts) as [a|] eqn:Ha;
      [|apply tank_alert_none_iff in Ha as [e He]; discriminate].
    destruct (tank_alert_well_formed _ _ _ Ha) as [Hwf _].
    rewrite (well_formed_alert_truthy a Hwf). unfold act_bind, act_ret.
    destruct (add_alert_well_formed a st Hwf) as (row & _ & ->). eauto.
  - by intros e snap -> ->.
  - by intros e e' -> ->.
Qed.


End RouteProperties.

(** ** The simulated tank level *)

Lemma clamp_percent_spec (x : Q) :
  ((x <= 0)%Q /\ clamp_percent x = 0%Q) \/
  ((0 < x)%Q /\ (x < 100)%Q /\ clamp_percent x = x) \/
  ((100 <= x)%Q /\ clamp_percent x = 100%Q).
Proof.
  unfold clamp_percent.
  destruct (py_min_spec 100 x) as [[Hlt ->]|[Hle ->]].
  - destruct (py_max_spec 0 x) as [[Hpos ->]|[Hneg ->]].
    + right; left. by repeat split.
    + left. by split.
  - right; right. split; [done|].
    destruct (py_max_spec 0 100) as [[_ ->]|[Hneg _]]; [done|lra].
Qed.

Lemma clamp_percent_range (x : Q) : (0 <= clamp_percent x)%Q /\ (clamp_percent x <= 100)%Q.
Proof.
  destruct (clamp_percent_spec x) as [[? ->]|[(? & ? & ->)|[? ->]]]; lra.
Qed.

Lemma py_round1_tenths (x : Q) : (py_round1 x == inject_Z (py_round (x * 10)) * (1 # 10))%Q.
Proof. reflexivity. Qed.

Lemma py_round_near (x : Q) :
  (x - (1 # 2) <= inject_Z (py_round x))%Q /\ (inject_Z (py_round x) <= x + (1 # 2))%Q.
Proof.
  destruct (py_round_cases x) as (Hlo & Hhi & Hc).
  assert (Hplus : (inject_Z (Qfloor x + 1) == inject_Z (Qfloor x) + 1)%Q)
    by (by rewrite inject_Z_plus).
  destruct Hc as [[Hc ->]|[[Hc ->]|[Hc ->]]]; [lra|rewrite Hplus; lra|].
  destruct (Z.even (Qfloor x)); [lra|rewrite Hplus; lra].
Qed.

Lemma py_round1_range (x : Q) :
  (0 <= x)%Q -> (x <= 100)%Q ->
  (0 <= py_round (x * 10) <= 1000)%Z /\
  (0 <= py_round1 x)%Q /\ (py_round1 x <= 100)%Q /\
  (x - (1 # 20) <= py_round1 x)%Q /\ (py_round1 x <= x + (1 # 20))%Q.
Proof.
  intros Hlo Hhi.
  assert (H0 : (0 <= py_round (x * 10))%Z) by (apply py_round_lower; unfold inject_Z; lra).
  assert (H1 : (py_round (x * 10) <= 1000)%Z) by (apply py_round_upper; unfold inject_Z; lra).
  destruct (py_round_near (x * 10)) as [Hn1 Hn2].
  assert (K0 : (0 <= inject_Z (py_round (x * 10)))%Q)
    by (change 0%Q with (inject_Z 0); by rewrite <- Zle_Qle).
  assert (K1 : (inject_Z (py_round (x * 10)) <= 1000)%Q)
    by (change 1000%Q with (inject_Z 1000); by rewrite <- Zle_Qle).
  split; [done|]. rewrite !py_round1_tenths.
  revert Hn1 Hn2 K0 K1. generalize (inject_Z (py_round (x * 10))). intros k **. lra.
Qed.

(** X17: the simulated tank level never leaves 0..100.  Whatever the stored
    level and the random draws are, [get_tank_level] stores a level in
    [0, 100] and returns a reading in [0, 100]; if the stored level was in
    range and the draws respect their ranges (2 for the change, 1 for the
    noise), the level moves by at most 2 and the reading is within 1.05 of
    it. *)
Theorem get_tank_level_in_range (change noise level : Q) :
  let '(reading, level') := get_tank_level change noise level in
  ((0 <= level')%Q /\ (level' <= 100)%Q) /\
  ((0 <= reading)%Q /\ (reading <= 100)%Q) /\
  ((0 <= level)%Q -> (level <= 100)%Q ->
   (-2 <= change)%Q -> (change <= 2)%Q -> (-1 <= noise)%Q -> (noise <= 1)%Q ->
   (level - 2 <= level')%Q /\ (level' <= level + 2)%Q /\
   (level' - (21 # 20) <= reading)%Q /\ (reading <= level' + (21 # 20))%Q).
Proof.
  unfold get_tank_level. cbv zeta.
  destruct (clamp_percent_range (level + change)) as [Hl0 Hl1].
  set (level' := clamp_percent (level + change)) in *.
  destruct (clamp_percent_range (level' + noise)) as [Hs0 Hs1].
  destruct (py_round1_range _ Hs0 Hs1) as (_ & Hr0 & Hr1 & Hr2 & Hr3).
  split; [done|]. split; [done|].
  intros Hlevel0 Hlevel1 Hc0 Hc1 Hn0 Hn1.
  assert (Hmove : (level - 2 <= level')%Q /\ (level' <= level + 2)%Q).
  { subst level'.
    destruct (clamp_percent_spec (level + change)) as [[? ->]|[(? & ? & ->)|[? ->]]]; lra. }
  split; [apply Hmove|]. split; [apply Hmove|].
  destruct (clamp_percent_spec (level' + noise)) as [[? E]|[(? & ? & E)|[? E]]];
    rewrite E in Hr2, Hr3 |- *; split; lra.
Qed.

Lemma py_int_integer (x : Q) (n : Z) : (x == inject_Z n)%Q -> py_int x = n.
Proof.
  unfold Qeq, py_int, inject_Z. cbn [Qnum Qden]. intros Hx.
  rewrite Z.mul_1_r in Hx. rewrite Hx. apply Z.quot_mul. lia.
Qed.

(** X18: a logged-in call of [/api/tank_sensor_data] reports a level in
    [0, 100] and, against the capacity of 5000, an available volume between
    0 and 5000, whatever the stored level and the random draws are; the
    stored level stays in [0, 100]. *)
Theorem get_tank_sensor_data_in_range (choice : scenario)
    (amount change noise : Q) (now : string) (level : Q) :
  exists tank_level available level',
    get_tank_sensor_data true choice amount change noise now level =
      (TankSensorReply tank_level 5000 available now, level') /\
    ((0 <= tank_level)%Q /\ (tank_level <= 100)%Q) /\
    (0 <= available <= 5000)%Z /\
    ((0 <= level')%Q /\ (level' <= 100)%Q).
Proof.
  unfold get_tank_sensor_data, get_tank_level. cbn [negb]. cbv zeta.
  set (simulated := simulate_sensor_scenarios choice amount level).
  destruct (clamp_percent_range (simulated + change)) as [Hl0 Hl1].
  set (level' := clamp_percent (simulated + change)) in *.
  destruct (clamp_percent_range (level' + noise)) as [Hs0 Hs1].
  set (sensor := clamp_percent (level' + noise)) in *.
  destruct (py_round1_range _ Hs0 Hs1) as (Hk & Hr0 & Hr1 & _ & _).
  eexists _, _, _. split; [reflexivity|]. split; [done|].
  assert (Hint : py_int (inject_Z 5000 * py_round1 sensor / 100) =
                 (5 * py_round (sensor * 10))%Z).
  { apply py_int_integer. rewrite py_round1_tenths, inject_Z_mult.
    change (inject_Z 5000) with 5000%Q. change (inject_Z 5) with 5%Q. field. }
  rewrite Hint. split; [lia|done].
Qed.

(** ** Accounts and sessions *)

Section AccountProperties.
Context `{FloatStr}.
Variable strip : string -> string.
Variable isdigit : string -> bool.

Lemma str_empty_false (s : string) : str_empty s = false <-> s <> "".
Proof. by destruct s. Qed.

Lemma existsb_userid_false (userid : string) (users : list UserRow) :
  existsb (fun u => String.eqb (user_userid u) userid) users = false <->
  userid ∉ user_userid <$> users.
Proof.
  induction users as [|u users IH]; simpl.
  - split; [intros _; apply not_elem_of_nil|done].
  - rewrite orb_false_iff, IH, not_elem_of_cons, String.eqb_neq.
    split; intros [Hne Hrest]; (split; [congruence|done]).
Qed.

(** X19: [register] keeps [userid] a key of [users] and never touches the
    rows already there.  It either leaves the table as it is, or appends one
    row and redirects to the login page; a row is appended only with a
    userid and a phone that pass [isdigit], a phone of 10 characters, and a
    name and a password that are not empty, all taken after [strip]. *)
Theorem register_keeps_primary_key (request : option RegisterForm) (users : list UserRow) :
  NoDup (user_userid <$> users) ->
  let '(answer, _, users') := register strip isdigit request users in
  NoDup (user_userid <$> users') /\
  ((users' = users /\ answer <> RedirectTo "login") \/
   (exists form,
      request = Some form /\
      answer = RedirectTo "login" /\
      users' = (users ++ [{| user_userid := strip (form_userid form);
                             user_name := strip (form_name form);
                             user_password := strip (form_password form);
                             user_phone := strip (form_phone form) |}])%list /\
      isdigit (strip (form_userid form)) = true /\
      isdigit (strip (form_phone form)) = true /\
      py_len (strip (form_phone form)) = 10%nat /\
      strip (form_name form) <> "" /\ strip (form_password form) <> "")).
Proof.
  intros Hkey. unfold register.
  destruct request as [form|]; [|split; [done|by left]].
  destruct (isdigit (strip (form_userid form))) eqn:Hid; cbn [negb];
    [|split; [done|by left]].
  destruct (isdigit (strip (form_phone form))) eqn:Hphone; cbn [negb orb];
    [|split; [done|by left]].
  destruct (Nat.eqb_spec (py_len (strip (form_phone form))) 10) as [Hlen|Hlen];
    cbn [negb]; [|split; [done|by left]].
  destruct (str_empty (strip (form_name form))) eqn:Hname; cbn [orb];
    [split; [done|by left]|].
  destruct (str_empty (strip (form_password form))) eqn:Hpw;
    [split; [done|by left]|].
  destruct (existsb _ users) eqn:Hfresh; [split; [done|by left]|].
  apply existsb_userid_false in Hfresh.
  apply str_empty_false in Hname, Hpw.
  split.
  - rewrite fmap_app. apply NoDup_app. split; [done|]. split.
    + intros x Hx Hx'. apply list_elem_of_singleton in Hx'. by subst x.
    + apply NoDup_singleton.
  - right. exists form. by repeat split.
Qed.

Lemma select_user_fresh (userid password : string) (users : list UserRow) :
  userid ∉ user_userid <$> users -> select_user userid password users = None.
Proof.
  unfold select_user. induction users as [|u users IH]; [done|].
  rewrite fmap_cons, not_elem_of_cons. intros [Hne Hrest]. simpl.
  assert ((user_userid u =? userid) = false) as -> by (apply String.eqb_neq; congruence).
  by apply IH.
Qed.

Lemma select_user_app_fresh (userid password : string) (users more : list UserRow) :
  userid ∉ user_userid <$> users ->
  select_user userid password (users ++ more) = select_user userid password more.
Proof.
  unfold select_user. induction users as [|u users IH]; [done|].
  rewrite fmap_cons, not_elem_of_cons. intros [Hne Hrest]. simpl.
  assert ((user_userid u =? userid) = false) as -> by (apply String.eqb_neq; congruence).
  by apply IH.
Qed.

(** X20: registering and logging in compose, on the stripped credentials.
    After a registration that redirected to the login page, logging in with
    the stripped userid and the stripped password opens the session of that
    user, and with that userid any other password, the unstripped one
    included when it differs, is refused and leaves the session as it
    was. *)
Theorem register_then_login (form : RegisterForm) (users users' : list UserRow)
    (flashes : list (string * string)) (s : session) :
  register strip isdigit (Some form) users = (RedirectTo "login", flashes, users') ->
  let userid := strip (form_userid form) in
  let password := strip (form_password form) in
  (exists flashes' s',
     login (Some {| login_userid := userid; login_password := password |}) users' s =
       (RedirectTo "dashboard", flashes', s') /\
     s' !! "username" = Some (strip (form_name form)) /\
     s' !! "userid" = Some userid) /\
  (forall wrong, wrong <> password ->
     exists flashes',
       login (Some {| login_userid := userid; login_password := wrong |}) users' s =
         (RenderTemplate "login.html", flashes', s)).
Proof.
  unfold register.
  destruct (isdigit (strip (form_userid form))); cbn [negb]; [|discriminate].
  destruct (negb (isdigit (strip (form_phone form))) || _); [discriminate|].
  destruct (str_empty (strip (form_name form)) || _); [discriminate|].
  destruct (existsb _ users) eqn:Hfresh; [discriminate|].
  apply existsb_userid_false in Hfresh.
  intros [= <- <-]. cbv zeta. unfold login. cbn [login_userid login_password].
  split.
  - rewrite (select_user_app_fresh _ _ users _ Hfresh). unfold select_user.
    cbn [List.find user_userid user_password]. rewrite !String.eqb_refl. cbn [andb].
    eexists _, _. split; [reflexivity|]. cbn [user_name user_userid].
    split; by simplify_map_eq.
  - intros wrong Hwrong.
    rewrite (select_user_app_fresh _ _ users _ Hfresh). unfold select_user.
    cbn [List.find user_userid user_password]. rewrite String.eqb_refl.
    assert ((strip (form_password form) =? wrong) = false) as ->
      by (apply String.eqb_neq; congruence).
    cbn [andb]. eauto.
Qed.

Lemma select_user_Some (userid password : string) (users : list UserRow) (user : UserRow) :
  select_user userid password users = Some user ->
  user ∈ users /\ user_userid user = userid /\ user_password user = password.
Proof.
  unfold select_user. intros Hfind. apply find_some in Hfind as [Hin Hmatch].
  apply andb_true_iff in Hmatch as [Hu Hp].
  apply String.eqb_eq in Hu, Hp. by rewrite <- list_elem_of_In in Hin.
Qed.

Lemma select_user_None (userid password : string) (users : list UserRow) :
  select_user userid password users = None ->
  forall user, user ∈ users ->
    ~ (user_userid user = userid /\ user_password user = password).
Proof.
  unfold select_user. intros Hfind user Hin [Hu Hp].
  rewrite list_elem_of_In in Hin.
  pose proof (find_none _ _ Hfind user Hin) as Hno. cbv beta in Hno.
  rewrite Hu, Hp, !String.eqb_refl in Hno. discriminate.
Qed.

(** X21: [login] opens a session exactly for a stored pair of userid and
    password, compared as they are typed; any other submission is answered
    with the login page and leaves the session unchanged. *)
Theorem login_succeeds_iff (form : LoginForm) (users : list UserRow) (s : session) :
  let '(answer, _, s') := login (Some form) users s in
  (answer = RedirectTo "dashboard" <->
   exists user, user ∈ users /\
     user_userid user = login_userid form /\
     user_password user = login_password form) /\
  (answer <> RedirectTo "dashboard" -> answer = RenderTemplate "login.html" /\ s' = s) /\
  (answer = RedirectTo "dashboard" ->
     s' !! "userid" = Some (login_userid form) /\
     s' !! "password" = Some (login_password form) /\
     is_Some (s' !! "username")).
Proof.
  unfold login.
  destruct (select_user (login_userid form) (login_password form) users) as [user|] eqn:Hsel.
  - destruct (select_user_Some _ _ _ _ Hsel) as (Hin & Hu & Hp).
    split; [split; [eauto|done]|]. split; [done|]. intros _.
    rewrite <- Hu, <- Hp. split; [by simplify_map_eq|]. split; by simplify_map_eq.
  - split; [|split; [done|discriminate]].
    split; [discriminate|]. intros (user & Hin & Hu & Hp).
    exfalso. by apply (select_user_None _ _ _ Hsel user Hin).
Qed.

(** X22: [logout] closes the session for the guarded routes but removes the
    key [username] only.  After a login followed by a logout the home page
    redirects to the login page and the guard fails, while the userid and
    the password of that login are still in the session. *)
Theorem logout_keeps_credentials (form : LoginForm) (users : list UserRow)
    (s s' : session) (flashes : list (string * string)) :
  login (Some form) users s = (RedirectTo "dashboard", flashes, s') ->
  let s'' := (logout s').2 in
  logged_in_session s'' = false /\
  home s'' = RedirectTo "login" /\
  s'' !! "userid" = Some (login_userid form) /\
  s'' !! "password" = Some (login_password form).
Proof.
  unfold login.
  destruct (select_user (login_userid form) (login_password form) users) as [user|] eqn:Hsel;
    [|discriminate].
  destruct (select_user_Some _ _ _ _ Hsel) as (_ & Hu & Hp).
  intros [= <- <-]. cbv zeta. unfold logout, home, logged_in_session. cbn [snd].
  rewrite <- Hu, <- Hp.
  assert (Hgone : ~ is_Some (delete "username"
     (<["phone":=user_phone user]> (<["password":=user_password user]>
       (<["username":=user_name user]> (<["userid":=user_userid user]> s)))) !! "username")).
  { rewrite lookup_delete_eq. by intros [? ?]. }
  rewrite !(bool_decide_eq_false_2 _ Hgone).
  split; [done|]. split; [done|]. split; by simplify_map_eq.
Qed.

End AccountProperties.

(** ** The crops of a user *)

Section CropProperties.
Context `{FloatStr}.
Variable strip : string -> string.

Lemma filter_keeps_all {A} (P : A -> Prop) `{forall x, Decision (P x)} (l : list A) :
  Forall P l -> filter P l = l.
Proof.
  induction 1 as [|x l Hx Hl IH]; [done|]. by rewrite filter_cons_True, IH.
Qed.

(** X23: [remove_crop] deletes nothing that belongs to someone else.  Every
    row of another user, and every row with another id, is still in the
    table afterwards, in the same order; the answer is "deleted" exactly
    when the session is logged in and holds the userid of a row with that
    id, and that row is then gone. *)
Theorem remove_crop_only_own (s : session) (id : Z) (t : CropTable) :
  let '(answer, t') := remove_crop s id t in
  let mine (row : CropRow) := crop_id row = id /\ s !! "userid" = Some (crop_userid row) in
  filter (fun row => ~ mine row) (user_crops t') =
    filter (fun row => ~ mine row) (user_crops t) /\
  (answer = CropDeleted <->
   logged_in_session s = true /\ exists row, row ∈ user_crops t /\ mine row) /\
  (answer = CropDeleted -> forall row, row ∈ user_crops t' -> ~ mine row) /\
  (answer <> CropDeleted -> t' = t).
Proof.
  unfold remove_crop.
  destruct (logged_in_session s) eqn:Hlogged; cbn [negb].
  2:{ split; [done|]. split; [split; [done|by intros [? _]]|]. by split. }
  destruct (s !! "userid") as [userid|] eqn:Huser.
  2:{ split; [done|]. split; [split; [done|]|by split].
      intros [_ (row & _ & _ & Hrow)]. discriminate. }
  set (mineb := fun row : CropRow =>
         (crop_id row =? id)%Z && String.eqb (crop_userid row) userid).
  assert (Hmine : forall row,
    mineb row = true <-> crop_id row = id /\ Some userid = Some (crop_userid row)).
  { intros row. unfold mineb. rewrite andb_true_iff, Z.eqb_eq, String.eqb_eq.
    split; intros [? ?]; split; congruence. }
  destruct (existsb mineb (user_crops t)) eqn:Hex.
  - cbn [user_crops]. split; [|split; [|split; [|done]]].
    + rewrite list_filter_filter. apply list_filter_iff.
      intros row. rewrite <- Hmine. fold (mineb row).
      destruct (mineb row); split; [by intros [? _]|done|done|by split].
    + split; [|done]. intros _. split; [done|].
      apply existsb_exists in Hex as (row & Hin & Hrow).
      exists row. rewrite list_elem_of_In. split; [done|]. by apply Hmine.
    + intros _ row [Hrow _]%list_elem_of_filter. change (mineb row = false) in Hrow.
      rewrite <- Hmine, Hrow. discriminate.
  - split; [done|]. split; [split; [done|]|by split].
    intros [_ (row & Hin & Hrow)]. apply Hmine in Hrow.
    rewrite list_elem_of_In in Hin.
    assert (existsb mineb (user_crops t) = true) by (apply existsb_exists; eauto).
    congruence.
Qed.

Lemma irrigation_alert_row (d : alert) (userid : string) (st : AppState) :
  well_formed_alert d ->
  exists row,
    alert_row d (Some userid) = Returned row /\
    row_userid row = Some userid /\
    add_alert (Some d) (Some userid) st =
      (Returned (),
       {| FARMER_ALERTS := FARMER_ALERTS st ++ [d];
          alert_history := alert_history st ++ [row] |}).
Proof.
  intros Hwf. pose proof (well_formed_alert_truthy d Hwf) as Ht.
  apply (alert_row_well_formed d (Some userid)) in Hwf as [row Hrow].
  exists row. split; [done|].
  split; [by destruct (alert_row_columns _ _ _ Hrow) as (-> & _)|].
  by apply add_alert_truthy.
Qed.

(** X24: a logged-in request with a crop name, a soil type and a start date
    adds one row to [user_crops], under the next id and owned by the userid
    of the session, and records one alert: it joins the feed and its history
    row carries that userid.  A request that lacks one of the three fields
    after [strip] is answered 400 and changes nothing. *)
Theorem add_crop_to_irrigation_effect (s : session) (data : CropRequest) (now : string)
    (t : CropTable) (st : AppState) (userid : string) :
  logged_in_session s = true ->
  s !! "userid" = Some userid ->
  let crop_name := strip (default "" (json_crop_name data)) in
  let soil_type := strip (default "" (json_soil_type data)) in
  let start_date := strip (default "" (json_start_date data)) in
  (crop_name = "" \/ soil_type = "" \/ start_date = "" ->
   add_crop_to_irrigation strip s data now t st = (Returned (MissingFields, t), st)) /\
  (crop_name <> "" -> soil_type <> "" -> start_date <> "" ->
   exists message a row new_crop,
     add_crop_to_irrigation strip s data now t st =
       (Returned (CropAdded message a,
                  {| user_crops := user_crops t ++ [new_crop];
                     last_crop_id := last_crop_id t + 1 |}),
        {| FARMER_ALERTS := FARMER_ALERTS st ++ [a];
           alert_history := alert_history st ++ [row] |}) /\
     crop_id new_crop = (last_crop_id t + 1)%Z /\
     crop_userid new_crop = userid /\
     crop_crop_name new_crop = crop_name /\
     crop_status new_crop = "active" /\
     a !! "crop_id" = Some (VInt (last_crop_id t + 1)) /\
     a !! "crop_name" = Some (VStr crop_name) /\
     row_userid row = Some userid /\
     row_category row = VStr "irrigation").
Proof.
  intros Hlogged Huser. cbv zeta. unfold add_crop_to_irrigation.
  rewrite Hlogged, Huser. cbn [negb].
  set (crop_name := strip (default "" (json_crop_name data))).
  set (soil_type := strip (default "" (json_soil_type data))).
  set (start_date := strip (default "" (json_start_date data))).
  split.
  - intros Hmissing.
    assert (str_empty crop_name || str_empty soil_type || str_empty start_date = true) as ->;
      [|done].
    destruct Hmissing as [Hm | [Hm | Hm]]; rewrite Hm; cbn [str_empty orb];
      by rewrite ?orb_true_r.
  - intros H1 H2 H3.
    assert (str_empty crop_name || str_empty soil_type || str_empty start_date = false) as ->.
    { destruct crop_name, soil_type, start_date; done. }
    match goal with |- context [add_alert (Some ?d) (Some userid) st] =>
      destruct (irrigation_alert_row d userid st) as (row & Hrow & Howner & ->);
        [repeat constructor; eexists; reflexivity|]
    end.
    eexists _, _, row, _. split; [reflexivity|]. cbn [crop_id crop_userid crop_crop_name crop_status].
    repeat split; try done.
    destruct (alert_row_columns _ _ _ Hrow) as (_ & _ & _ & _ & _ & Hcat & _).
    revert Hcat. rewrite lookup_insert_ne; [|done]. rewrite lookup_insert_ne; [|done].
    rewrite lookup_insert_ne; [|done]. rewrite lookup_insert_ne; [|done].
    rewrite lookup_insert_eq. by intros [= <-].
Qed.

(** X25: adding a crop and removing it again restores the table, provided
    no stored id exceeds the counter of the key (which AUTOINCREMENT
    guarantees): the user who added the crop can delete it under the id the
    alert reports, and the rows that were there before are all that is
    left.  The counter is not handed back. *)
Theorem add_then_remove_crop (s : session) (data : CropRequest) (now : string)
    (t t' : CropTable) (st st' : AppState) (userid message : string) (a : alert) :
  s !! "userid" = Some userid ->
  Forall (fun row => (crop_id row <= last_crop_id t)%Z) (user_crops t) ->
  add_crop_to_irrigation strip s data now t st = (Returned (CropAdded message a, t'), st') ->
  a !! "crop_id" = Some (VInt (last_crop_id t + 1)) /\
  remove_crop s (last_crop_id t + 1) t' =
    (CropDeleted, {| user_crops := user_crops t; last_crop_id := last_crop_id t + 1 |}).
Proof.
  intros Huser Hids. unfold add_crop_to_irrigation.
  destruct (logged_in_session s) eqn:Hlogged; cbn [negb]; [|discriminate].
  destruct (_ || _ || _); [discriminate|]. rewrite Huser.
  match goal with |- context [add_alert (Some ?d) (Some userid) st] =>
    destruct (irrigation_alert_row d userid st) as (row & Hrow & Howner & ->);
      [repeat constructor; eexists; reflexivity|]
  end.
  intros [= <- <- <- <-]. split; [reflexivity|].
  unfold remove_crop. rewrite Hlogged, Huser. cbn [negb user_crops last_crop_id].
  rewrite existsb_app. cbn [existsb crop_id crop_userid].
  rewrite Z.eqb_refl, String.eqb_refl, !orb_true_r.
  f_equal. f_equal.
  rewrite filter_app, filter_cons_False, filter_nil, app_nil_r.
  - apply filter_keeps_all. eapply Forall_impl; [exact Hids|]. cbv beta.
    intros old Hle. apply andb_false_iff. left. apply Z.eqb_neq. lia.
  - cbn [crop_id crop_userid]. by rewrite Z.eqb_refl, String.eqb_refl.
Qed.

End CropProperties.

(** ** Examples of the accounts and of the crops *)

Lemma tank_alert_none_iff_read_failed_example :
  check_water_tank_alert (H := one_decimal)
    (get_tank_snapshot (Returned {| json_soil_pct := Some 35%Q; json_temp_c := None;
                                    json_humidity_pct := None;
                                    json_ultrasonic_cm := None |})) sample_ts = None.
Proof. reflexivity. Qed.

Lemma register_keeps_primary_key_witness :
  let '(answer, _, users') :=
    register (H := one_decimal) no_blanks ascii_isdigit (Some sample_form) [] in
  NoDup (user_userid <$> users') /\ answer = RedirectTo "login" /\ length users' = 1%nat.
Proof.
  pose proof (register_keeps_primary_key (H := one_decimal) no_blanks ascii_isdigit
                (Some sample_form) [] (NoDup_nil_2 (A := string))) as Hreg.
  revert Hreg. vm_compute. intros [Hkey _]. by repeat split.
Defined.

Lemma register_then_login_witness :
  exists flashes s',
    login (H := one_decimal)
      (Some {| login_userid := "1001"; login_password := "s3cret" |})
      [{| user_userid := "1001"; user_name := "Asha"; user_password := "s3cret";
          user_phone := "9876543210" |}] ∅ =
      (RedirectTo "dashboard", flashes, s') /\
    s' !! "username" = Some "Asha" /\ s' !! "userid" = Some "1001".
Proof.
  exact (proj1 (register_then_login (H := one_decimal) no_blanks ascii_isdigit
                  sample_form [] _ _ ∅ eq_refl)).
Defined.

Lemma logout_keeps_credentials_witness :
  let form := {| login_userid := "1001"; login_password := "s3cret" |} in
  let users := [{| user_userid := "1001"; user_name := "Asha"; user_password := "s3cret";
                   user_phone := "9876543210" |}] in
  exists s',
    (login (H := one_decimal) (Some form) users ∅).2 = s' /\
    logged_in_session (logout (H := one_decimal) s').2 = false /\
    (logout (H := one_decimal) s').2 !! "password" = Some "s3cret".
Proof.
  cbv zeta. eexists. split; [reflexivity|].
  destruct (logout_keeps_credentials (H := one_decimal)
              {| login_userid := "1001"; login_password := "s3cret" |}
              [{| user_userid := "1001"; user_name := "Asha"; user_password := "s3cret";
                  user_phone := "9876543210" |}] ∅ _ _ eq_refl)
    as (Hguard & _ & _ & Hpw).
  split; [exact Hguard|exact Hpw].
Defined.

Lemma add_crop_to_irrigation_effect_witness :
  exists message a row new_crop,
    add_crop_to_irrigation (H := one_decimal) no_blanks sample_session sample_crop_request
      sample_ts empty_crops empty_state =
      (Returned (CropAdded message a,
                 {| user_crops := [new_crop]; last_crop_id := 1 |}),
       {| FARMER_ALERTS := [a]; alert_history := [row] |}) /\
    crop_userid new_crop = "1001" /\ row_userid row = Some "1001".
Proof.
  destruct (add_crop_to_irrigation_effect (H := one_decimal) no_blanks sample_session
              sample_crop_request sample_ts empty_crops empty_state "1001"
              eq_refl eq_refl) as [_ Hadd].
  destruct Hadd as (message & a & row & new_crop & Hrun & _ & Howner & _ & _ & _ & _ & Hrow & _);
    [discriminate|discriminate|discriminate|].
  exists message, a, row, new_crop. split; [exact Hrun|]. split; [exact Howner|exact Hrow].
Defined.

Lemma add_then_remove_crop_witness :
  exists t' : CropTable,
    remove_crop sample_session 1 t' = (CropDeleted, {| user_crops := []; last_crop_id := 1 |}).
Proof.
  destruct (add_crop_to_irrigation_effect (H := one_decimal) no_blanks sample_session
              sample_crop_request sample_ts empty_crops empty_state "1001"
              eq_refl eq_refl) as [_ Hadd].
  destruct Hadd as (message & a & row & new_crop & Hrun & _);
    [discriminate|discriminate|discriminate|].
  eexists.
  exact (proj2 (add_then_remove_crop (H := one_decimal) no_blanks sample_session
                  sample_crop_request sample_ts empty_crops _ empty_state _ "1001" message a
                  eq_refl (Forall_nil_2 _) Hrun)).
Defined.

(** ** The crop filter *)

Section CropFilterProperties.
Context `{FloatStr}.
Variable strip : string -> string.
Variable lower : string -> string.
Variable parse_number : string -> option Q.

Lemma list_filter_sublist {A} (f : A -> bool) (l : list A) : sublist (List.filter f l) l.
Proof.
  induction l as [|x l IH]; simpl; [constructor|].
  destruct (f x); by constructor.
Qed.

Lemma list_filter_sublist_weaker {A} (f g : A -> bool) (l : list A) :
  (forall x, f x = true -> g x = true) ->
  sublist (List.filter f l) (List.filter g l).
Proof.
  intros Hfg. induction l as [|x l IH]; simpl; [constructor|].
  destruct (f x) eqn:Hf.
  - rewrite (Hfg x Hf). by constructor.
  - destruct (g x); [by constructor|exact IH].
Qed.

Lemma row_mask_without_selection (df : DataFrame) (soil : SoilSnapshot)
    (live_bucket : string) (selected_soil : option string) (row : gmap string cell) :
  row_mask strip lower df soil live_bucket selected_soil row = true ->
  row_mask strip lower df soil live_bucket None row = true.
Proof.
  unfold row_mask. cbv zeta. rewrite !andb_true_iff.
  intros [[[[[[? ?] ?] ?] ?] _] ?]. by repeat split.
Qed.

(** X26: the filter keeps the catalog's order and invents nothing: the rows
    recommended are a subsequence of the catalog rows (with their numeric
    columns coerced), and choosing a soil type can only narrow the
    recommendation made without one. *)
Theorem crop_filter_stable (CROPS_DF : DataFrame) (soil : SoilSnapshot)
    (live_bucket : string) (selected_soil : option string) :
  sublist (crop_filter strip lower parse_number CROPS_DF soil live_bucket selected_soil)
          (coerce_row strip parse_number CROPS_DF <$> df_rows CROPS_DF) /\
  sublist (crop_filter strip lower parse_number CROPS_DF soil live_bucket selected_soil)
          (crop_filter strip lower parse_number CROPS_DF soil live_bucket None) /\
  (length (crop_filter strip lower parse_number CROPS_DF soil live_bucket selected_soil)
     <= length (df_rows CROPS_DF))%nat.
Proof.
  unfold crop_filter. cbv zeta. split; [apply list_filter_sublist|]. split.
  - apply list_filter_sublist_weaker. intros row. apply row_mask_without_selection.
  - etransitivity; [apply sublist_length, list_filter_sublist|].
    by rewrite length_fmap.
Qed.

Lemma first_column_cases (df : DataFrame) (a b : string) :
  first_column df [a; b] = Some a \/ first_column df [a; b] = Some b \/
  first_column df [a; b] = None.
Proof.
  unfold first_column. simpl. destruct (has_column df a); [by left|].
  destruct (has_column df b); [right; by left|right; by right].
Qed.

Lemma first_column_has (df : DataFrame) (names : list string) (col : string) :
  first_column df names = Some col -> has_column df col = true.
Proof. unfold first_column. intros Hfind. by apply find_some in Hfind as [_ ?]. Qed.

Lemma numeric_columns_NoDup (df : DataFrame) : NoDup (numeric_columns df).
Proof.
  unfold numeric_columns. cbv zeta.
  destruct (first_column_cases df "Min Humidity" "Min Humidity ") as [Hlo | [Hlo | Hlo]];
  destruct (first_column_cases df "Max Humidity" "Max Humidity ") as [Hhi | [Hhi | Hhi]];
    rewrite Hlo, Hhi; cbn [option_list app]; refine (bool_decide_unpack _ _); vm_compute; exact I.
Qed.

Lemma coerce_fold_lookup (df : DataFrame) (cols : list string) (row : gmap string cell)
    (col : string) :
  NoDup cols ->
  foldl (fun row col =>
           if has_column df col
           then <[col := float_cell (_num strip parse_number (row_get row col))]> row
           else row) row cols !! col =
    if bool_decide (col ∈ cols) && has_column df col
    then Some (float_cell (_num strip parse_number (row_get row col)))
    else row !! col.
Proof.
  revert row. induction cols as [|c cols IH]; intros row Hnd; [done|].
  apply NoDup_cons in Hnd as [Hc Hnd]. cbn [foldl]. rewrite (IH _ Hnd).
  destruct (decide (col = c)) as [->|Hne].
  - rewrite (bool_decide_eq_false_2 _ Hc). cbn [andb].
    rewrite (bool_decide_eq_true_2 (c ∈ c :: cols)); [|apply list_elem_of_here].
    cbn [andb]. destruct (has_column df c); [by rewrite lookup_insert_eq|done].
  - assert (Hmem : bool_decide (col ∈ c :: cols) = bool_decide (col ∈ cols)).
    { apply bool_decide_ext. rewrite elem_of_cons. split; [|by right].
      by intros [?|?]. }
    rewrite Hmem.
    assert (Hget : forall r : gmap string cell,
      row_get (if has_column df c
               then <[c := float_cell (_num strip parse_number (row_get r c))]> r
               else r) col = row_get r col).
    { intros r. unfold row_get. destruct (has_column df c); [|done].
      by rewrite lookup_insert_ne. }
    rewrite Hget. destruct (bool_decide (col ∈ cols) && has_column df col); [done|].
    destruct (has_column df c); [by rewrite lookup_insert_ne|done].
Qed.

Lemma coerce_row_lookup (df : DataFrame) (row : gmap string cell) (col : string) :
  coerce_row strip parse_number df row !! col =
    if bool_decide (col ∈ numeric_columns df) && has_column df col
    then Some (float_cell (_num strip parse_number (row_get row col)))
    else row !! col.
Proof. apply coerce_fold_lookup, numeric_columns_NoDup. Qed.

Lemma num_float_cell (x : option Q) : _num strip parse_number (float_cell x) = x.
Proof. by destruct x. Qed.

Lemma coerce_row_idempotent (df : DataFrame) (row : gmap string cell) :
  coerce_row strip parse_number df (coerce_row strip parse_number df row) =
  coerce_row strip parse_number df row.
Proof.
  apply map_eq. intros col. rewrite (coerce_row_lookup df (coerce_row _ _ _ _)).
  rewrite (coerce_row_lookup df row).
  destruct (bool_decide (col ∈ numeric_columns df) && has_column df col) eqn:Hcol; [|done].
  unfold row_get at 1. rewrite coerce_row_lookup, Hcol.
  change (default CNaN (Some ?c)) with c. by rewrite num_float_cell.
Qed.

Lemma list_filter_idempotent {A} (f : A -> bool) (l : list A) :
  List.filter f (List.filter f l) = List.filter f l.
Proof.
  induction l as [|x l IH]; [done|]. simpl. destruct (f x) eqn:Hf; [|done].
  simpl. by rewrite Hf, IH.
Qed.

(** X27: filtering is idempotent.  Run again on its own result, as a frame
    with the same columns and under the same conditions, the filter returns
    that result unchanged: the coerced numbers parse back to themselves and
    every row passes the mask again. *)
Theorem crop_filter_idempotent (CROPS_DF : DataFrame) (soil : SoilSnapshot)
    (live_bucket : string) (selected_soil : option string) :
  let recommended :=
    crop_filter strip lower parse_number CROPS_DF soil live_bucket selected_soil in
  crop_filter strip lower parse_number
    {| df_columns := df_columns CROPS_DF; df_rows := recommended |}
    soil live_bucket selected_soil = recommended.
Proof.
  cbv zeta. unfold crop_filter at 1. cbv zeta. cbn [df_rows].
  set (again := {| df_columns := df_columns CROPS_DF; df_rows := _ |}).
  assert (Hmask : row_mask strip lower again soil live_bucket selected_soil =
                  row_mask strip lower CROPS_DF soil live_bucket selected_soil)
    by reflexivity.
  assert (Hcoerce : forall row,
    coerce_row strip parse_number again row = coerce_row strip parse_number CROPS_DF row)
    by reflexivity.
  rewrite Hmask. unfold crop_filter. cbv zeta.
  set (f := row_mask strip lower CROPS_DF soil live_bucket selected_soil).
  assert (Hid : forall rows : list (gmap string cell),
    coerce_row strip parse_number again <$>
      List.filter f (coerce_row strip parse_number CROPS_DF <$> rows) =
    List.filter f (coerce_row strip parse_number CROPS_DF <$> rows)).
  { induction rows as [|row rows IH]; [done|]. cbn [fmap list_fmap List.filter].
    destruct (f _); [|exact IH]. cbn [fmap list_fmap].
    rewrite Hcoerce, coerce_row_idempotent. f_equal. exact IH. }
  rewrite Hid. apply list_filter_idempotent.
Qed.

Lemma row_get_coerce_row (df : DataFrame) (row : gmap string cell) (col : string) :
  row_get (coerce_row strip parse_number df row) col =
    if bool_decide (col ∈ numeric_columns df) && has_column df col
    then float_cell (_num strip parse_number (row_get row col))
    else row_get row col.
Proof.
  unfold row_get at 1. rewrite coerce_row_lookup.
  by destruct (bool_decide (col ∈ numeric_columns df) && has_column df col).
Qed.

Lemma row_get_coerced (df : DataFrame) (row : gmap string cell) (col : string) :
  col ∈ numeric_columns df -> has_column df col = true ->
  row_get (coerce_row strip parse_number df row) col =
  float_cell (_num strip parse_number (row_get row col)).
Proof.
  intros Hin Hcol. rewrite row_get_coerce_row, Hcol.
  by rewrite (bool_decide_eq_true_2 _ Hin).
Qed.

Lemma row_get_untouched (df : DataFrame) (row : gmap string cell) (col : string) :
  col ∉ ["Min Temp"; "Max temp"; "Min Humidity"; "Min Humidity "; "Max Humidity";
         "Max Humidity "; "Total Water ( mm )"] ->
  row_get (coerce_row strip parse_number df row) col = row_get row col.
Proof.
  intros Hout. rewrite row_get_coerce_row.
  rewrite bool_decide_eq_false_2; [done|]. intros Hin. apply Hout. revert Hin.
  unfold numeric_columns. cbv zeta.
  destruct (first_column_cases df "Min Humidity" "Min Humidity ") as [Hlo | [Hlo | Hlo]];
  destruct (first_column_cases df "Max Humidity" "Max Humidity ") as [Hhi | [Hhi | Hhi]];
    rewrite Hlo, Hhi; rewrite !elem_of_app; unfold option_list; cbn [option_rect];
    rewrite !elem_of_cons, !elem_of_nil; tauto.
Qed.

Lemma cell_le_float_cell (x : option Q) (t : Q) :
  cell_le (float_cell x) t = true -> exists lo, x = Some lo /\ (lo <= t)%Q.
Proof.
  destruct x as [q|]; [|discriminate]. unfold cell_le. cbn.
  intros Hle. exists q. split; [done|]. by apply Qle_bool_iff.
Qed.

Lemma cell_ge_float_cell (x : option Q) (t : Q) :
  cell_ge (float_cell x) t = true -> exists hi, x = Some hi /\ (t <= hi)%Q.
Proof.
  destruct x as [q|]; [|discriminate]. unfold cell_ge. cbn.
  intros Hle. exists q. split; [done|]. by apply Qle_bool_iff.
Qed.

Lemma humidity_column_numeric (df : DataFrame) (col : string) :
  first_column df ["Min Humidity"; "Min Humidity "] = Some col \/
  first_column df ["Max Humidity"; "Max Humidity "] = Some col ->
  col ∈ numeric_columns df.
Proof.
  unfold numeric_columns. cbv zeta. intros [Hcol | Hcol]; rewrite Hcol.
  - rewrite !elem_of_app. right. left. apply list_elem_of_here.
  - rewrite !elem_of_app. right. right. left. apply list_elem_of_here.
Qed.

Lemma existsb_eqb_elem (b : string) (l : list string) :
  existsb (String.eqb b) l = true -> b ∈ l.
Proof.
  intros Hex. apply existsb_exists in Hex as (t & Hin & Heq).
  apply String.eqb_eq in Heq. subst t. by apply list_elem_of_In.
Qed.

(** X28: what a recommendation guarantees.  Every row recommended is a row
    of the catalog (its numeric columns coerced) whose original cells meet
    each restriction whose column exists: the temperature and humidity
    limits are numbers, or ranges read as their midpoint, that enclose the
    live readings, so a row with a limit that is missing or unreadable is
    never recommended; the live moisture bucket is one of the tokens of the
    row's soil moisture; the soil type chosen matches after trimming and
    lower-casing; and the crop has a name. *)
Theorem crop_filter_sound (CROPS_DF : DataFrame) (soil : SoilSnapshot)
    (live_bucket : string) (selected_soil : option string) (r : gmap string cell) :
  r ∈ crop_filter strip lower parse_number CROPS_DF soil live_bucket selected_soil ->
  exists r0,
    r0 ∈ df_rows CROPS_DF /\ r = coerce_row strip parse_number CROPS_DF r0 /\
    (has_column CROPS_DF "Min Temp" = true ->
     exists lo, _num strip parse_number (row_get r0 "Min Temp") = Some lo /\
                (lo <= soil_temperature soil)%Q) /\
    (has_column CROPS_DF "Max temp" = true ->
     exists hi, _num strip parse_number (row_get r0 "Max temp") = Some hi /\
                (soil_temperature soil <= hi)%Q) /\
    (forall col, first_column CROPS_DF ["Min Humidity"; "Min Humidity "] = Some col ->
     exists lo, _num strip parse_number (row_get r0 col) = Some lo /\
                (lo <= soil_humidity soil)%Q) /\
    (forall col, first_column CROPS_DF ["Max Humidity"; "Max Humidity "] = Some col ->
     exists hi, _num strip parse_number (row_get r0 col) = Some hi /\
                (soil_humidity soil <= hi)%Q) /\
    (has_column CROPS_DF "Soil Moisture" = true -> live_bucket <> "unknown" ->
     live_bucket ∈ _tokenize_categories strip lower (row_get r0 "Soil Moisture")) /\
    (forall selected, selected_soil = Some selected -> selected <> EmptyString ->
     has_column CROPS_DF "Soil Type" = true ->
     _norm strip lower (cell_str (row_get r0 "Soil Type")) = _norm strip lower selected) /\
    (has_column CROPS_DF "Crop" = true -> row_get r0 "Crop" <> CNaN).
Proof.
  unfold crop_filter. cbv zeta. intros Hin.
  apply list_elem_of_In, filter_In in Hin as [Hin Hmask].
  apply list_elem_of_In, list_elem_of_fmap in Hin as (r0 & -> & Hin).
  exists r0. split; [done|]. split; [done|].
  revert Hmask. unfold row_mask. cbv zeta. rewrite !andb_true_iff.
  intros [[[[[[Htlo Hthi] Hhlo] Hhhi] Hsm] Hst] Hcrop].
  repeat apply conj.
  - intros Hcol. rewrite Hcol in Htlo.
    rewrite row_get_coerced in Htlo; [by apply cell_le_float_cell| |done].
    unfold numeric_columns. apply elem_of_app. left. apply list_elem_of_here.
  - intros Hcol. rewrite Hcol in Hthi.
    rewrite row_get_coerced in Hthi; [by apply cell_ge_float_cell| |done].
    unfold numeric_columns. apply elem_of_app. left. apply list_elem_of_further, list_elem_of_here.
  - intros col Hcol. rewrite Hcol in Hhlo.
    rewrite row_get_coerced in Hhlo; [by apply cell_le_float_cell| |].
    + apply humidity_column_numeric. by left.
    + by apply first_column_has in Hcol.
  - intros col Hcol. rewrite Hcol in Hhhi.
    rewrite row_get_coerced in Hhhi; [by apply cell_ge_float_cell| |].
    + apply humidity_column_numeric. by right.
    + by apply first_column_has in Hcol.
  - intros Hcol Hknown. rewrite Hcol in Hsm.
    assert (Hne : String.eqb live_bucket "unknown" = false) by by apply String.eqb_neq.
    rewrite Hne in Hsm. cbn [negb andb] in Hsm.
    rewrite row_get_untouched in Hsm; [by apply existsb_eqb_elem|].
    rewrite !elem_of_cons, elem_of_nil. intros Hc. by repeat destruct Hc as [Hc | Hc].
  - intros selected -> Hsel Hcol. rewrite Hcol in Hst.
    destruct selected as [|c rest]; [done|]. cbn [str_empty negb andb] in Hst.
    rewrite row_get_untouched in Hst; [by apply String.eqb_eq in Hst|].
    rewrite !elem_of_cons, elem_of_nil. intros Hc. by repeat destruct Hc as [Hc | Hc].
  - intros Hcol. rewrite Hcol in Hcrop.
    rewrite row_get_untouched in Hcrop.
    + intros Hnan. by rewrite Hnan in Hcrop.
    + rewrite !elem_of_cons, elem_of_nil. intros Hc. by repeat destruct Hc as [Hc | Hc].
Qed.

End CropFilterProperties.

(** With 22 degrees, 55 % humidity and 35 % moisture, and loamy soil chosen,
    the sample catalog recommends maize alone: rice wants flooded soil, and
    the lower temperature limit of tea cannot be read. *)
Lemma sample_catalog_recommendation :
  crop_filter (H := one_decimal) no_blanks str_lower no_text_numbers sample_catalog
    (sample_soil 35) "low" (Some "loamy") =
  [coerce_row no_blanks no_text_numbers sample_catalog maize_row].
Proof. vm_compute. reflexivity. Qed.

Lemma crop_filter_sound_witness :
  exists r0,
    r0 ∈ df_rows sample_catalog /\
    (exists lo, _num no_blanks no_text_numbers (row_get r0 "Min Temp") = Some lo /\
                (lo <= 22)%Q) /\
    "low" ∈ _tokenize_categories (H := one_decimal) no_blanks str_lower
              (row_get r0 "Soil Moisture").
Proof.
  destruct (crop_filter_sound (H := one_decimal) no_blanks str_lower no_text_numbers
              sample_catalog (sample_soil 35) "low" (Some "loamy")
              (coerce_row no_blanks no_text_numbers sample_catalog maize_row))
    as (r0 & Hrow & _ & Hlo & _ & _ & _ & Hsm & _).
  - rewrite sample_catalog_recommendation. apply list_elem_of_here.
  - exists r0. split; [exact Hrow|]. split.
    + apply Hlo. reflexivity.
    + apply Hsm; [reflexivity|discriminate].
Defined.
